(** * The video service of the Facebook video downloader

    A shallow embedding of [backend/app/services/video.py]: the URL
    classifier, the format normaliser, the extraction and download
    orchestration with their retries, and the scratch directory life cycle,
    followed by the properties the specification states about them.

    Python strings are modelled as byte strings ([string]), with ASCII case
    folding; JSON-like values as [pyval] (None, integers, strings; floating
    point numbers are outside the model); dictionaries as [gmap string pyval];
    exceptions as values of [exn] carried by the [result] monad; the file
    system as a finite map from absolute canonical paths to node kinds. *)

From Stdlib Require Import ZArith String Ascii List Bool Lia.
From stdpp Require Import base option gmap strings list pretty.

Open Scope string_scope.
Open Scope list_scope.

(** ** Python strings *)

Module PyStr.

Definition ascii_lower (c : ascii) : ascii :=
  let n := N_of_ascii c in
  if ((65 <=? n) && (n <=? 90))%N then ascii_of_N (n + 32) else c.

Definition ascii_upper (c : ascii) : ascii :=
  let n := N_of_ascii c in
  if ((97 <=? n) && (n <=? 122))%N then ascii_of_N (n - 32) else c.

(** [s.lower()] *)
Fixpoint lower (s : string) : string :=
  match s with
  | EmptyString => EmptyString
  | String c r => String (ascii_lower c) (lower r)
  end.

(** [s.upper()] *)
Fixpoint upper (s : string) : string :=
  match s with
  | EmptyString => EmptyString
  | String c r => String (ascii_upper c) (upper r)
  end.

(** [x in s] for two strings: [x] occurs in [s] as a substring. *)
Fixpoint contains (x s : string) : bool :=
  String.prefix x s ||
  match s with
  | EmptyString => false
  | String _ r => contains x r
  end.

(** [any(x in s for x in xs)] *)
Definition any_in (xs : list string) (s : string) : bool :=
  existsb (fun x => contains x s) xs.

(** [s in xs] for a list of strings. *)
Definition mem (s : string) (xs : list string) : bool :=
  existsb (String.eqb s) xs.

End PyStr.

(** ** Python values, exceptions and results *)

Inductive pyval :=
| PNone
| PInt (z : Z)
| PStr (s : string).

Inductive exn_class :=
| DownloadError
| ValueError
| TypeError
| AttributeError
| ValidationError
| FileNotFoundError
| FileExistsError
| NotADirectoryError
| IsADirectoryError
| OSError
| OtherException.

Record exn := Exn { exn_cls : exn_class; exn_str : string }.

Inductive result (A : Type) :=
| Ok (a : A)
| Raise (e : exn).
Arguments Ok {A} a.
Arguments Raise {A} e.

#[global] Instance result_ret : MRet result := fun A a => Ok a.
#[global] Instance result_bind : MBind result := fun A B f r =>
  match r with
  | Ok a => f a
  | Raise e => Raise e
  end.

Module Py.

(** [bool(v)] *)
Definition truthy (v : pyval) : bool :=
  match v with
  | PNone => false
  | PInt z => negb (z =? 0)%Z
  | PStr s => negb (String.eqb s EmptyString)
  end.

(** [v == s] for a string literal [s] *)
Definition eq_str (v : pyval) (s : string) : bool :=
  match v with
  | PStr t => String.eqb t s
  | _ => false
  end.

(** [a or b] *)
Definition or_ (a b : pyval) : pyval := if truthy a then a else b.

(** [str(v)], as an f-string formats a value *)
Definition str (v : pyval) : string :=
  match v with
  | PNone => "None"
  | PInt z => pretty z
  | PStr s => s
  end.

Definition type_name (v : pyval) : string :=
  match v with
  | PNone => "NoneType"
  | PInt _ => "int"
  | PStr _ => "str"
  end.

(** [v.lower()] *)
Definition lower (v : pyval) : result string :=
  match v with
  | PStr s => Ok (PyStr.lower s)
  | _ => Raise (Exn AttributeError
           ("'" +:+ type_name v +:+ "' object has no attribute 'lower'"))
  end.

(** [x in v] *)
Definition contains (x : string) (v : pyval) : result bool :=
  match v with
  | PStr s => Ok (PyStr.contains x s)
  | _ => Raise (Exn TypeError
           ("argument of type '" +:+ type_name v +:+ "' is not iterable"))
  end.

(** [any(x in v for x in xs)]: the generator stops at the first hit. *)
Fixpoint any_in (xs : list string) (v : pyval) : result bool :=
  match xs with
  | [] => Ok false
  | x :: rest => b ← contains x v; if b : bool then Ok true else any_in rest v
  end.

(** [d.get(k, dflt)] and [d.get(k)] *)
Definition get (d : gmap string pyval) (k : string) (dflt : pyval) : pyval :=
  default dflt (d !! k).
Definition get_none (d : gmap string pyval) (k : string) : pyval :=
  get d k PNone.

End Py.

(** ** The URL classifier *)

Definition facebook_patterns : list string :=
  ["facebook.com"; "fb.com"; "fb.watch"; "m.facebook.com"].

Definition validate_facebook_url (url : string) : bool :=
  existsb (fun pattern => PyStr.contains pattern (PyStr.lower url)) facebook_patterns.

(** ** The format normaliser *)

(** Modelled from the spec: the [VideoFormat] schema ([app/schemas/video.py]
    is not among the sources). A format has an identifier, a resolution, a
    container extension and a note, all strings, and an optional file size in
    bytes. *)
Record VideoFormat := mkVideoFormat {
  format_id : string;
  resolution : string;
  ext : string;
  filesize : option Z;
  format_note : string
}.

(** Modelled from the spec: the schema's constructor. Its fields are typed as
    above; a value of another type is refused with a validation error. *)
Definition VideoFormat_new (fid res : pyval) (e : string) (size : pyval)
    (note : string) : result VideoFormat :=
  match fid, res, size with
  | PStr i, PStr r, PNone => Ok (mkVideoFormat i r e None note)
  | PStr i, PStr r, PInt n => Ok (mkVideoFormat i r e (Some n) note)
  | _, _, _ => Raise (Exn ValidationError "validation error for VideoFormat")
  end.

Definition streaming_protocols : list string := ["m3u8"; "dash"; "http_dash_segments"].
Definition streaming_notes : list string := ["dash"; "hls"; "fragment"].
Definition compatible_exts : list string := ["mp4"; "mov"; "avi"; "mkv"].

(** The resolution of a raw descriptor, as the loop body computes it. *)
Definition raw_resolution (fmt : gmap string pyval) : pyval :=
  let height := Py.get_none fmt "height" in
  let width := Py.get_none fmt "width" in
  if Py.truthy height && Py.truthy width
  then PStr (Py.str width +:+ "x" +:+ Py.str height)
  else Py.or_ (Py.get_none fmt "resolution")
         (Py.or_ (Py.get_none fmt "format_note") (PStr "unknown")).

(** One turn of the loop over [info['formats']]: [None] stands for
    [continue], [Some entry] for [formats.append(entry)]. *)
Definition format_entry (fmt : gmap string pyval) : result (option VideoFormat) :=
  let protocol := Py.get fmt "protocol" (PStr "") in
  note ← Py.lower (Py.get fmt "format_note" (PStr ""));
  let e := Py.get fmt "ext" (PStr "mp4") in
  streaming ← Py.any_in streaming_protocols protocol;
  if streaming : bool then Ok None else
  if PyStr.any_in streaming_notes note then Ok None else
  let vcodec := Py.get fmt "vcodec" (PStr "none") in
  if Py.eq_str vcodec "none" || negb (Py.truthy vcodec) then Ok None else
  let height := Py.get_none fmt "height" in
  let res := raw_resolution fmt in
  if Py.eq_str res "audio only" then Ok None else
  match e with
  | PStr e =>
      if negb (PyStr.mem e compatible_exts) then Ok None else
      entry ← VideoFormat_new (Py.get fmt "format_id" (PStr "best")) res e
                (Py.get_none fmt "filesize")
                (if Py.truthy height
                 then Py.str res +:+ " - " +:+ PyStr.upper e
                 else "Standard quality - " +:+ PyStr.upper e);
      Ok (Some entry)
  | _ => Ok None
  end.

(** The loop that fills [formats]. *)
Fixpoint collect_formats (raw : list (gmap string pyval)) (formats : list VideoFormat)
    : result (list VideoFormat) :=
  match raw with
  | [] => Ok formats
  | fmt :: rest =>
      o ← format_entry fmt;
      collect_formats rest (match o with
                            | Some entry => formats ++ [entry]
                            | None => formats
                            end)
  end.

(** The loop that removes duplicates, with its [seen] set. *)
Fixpoint unique_loop (formats : list VideoFormat) (seen : gset string)
    (unique_formats : list VideoFormat) : list VideoFormat :=
  match formats with
  | [] => unique_formats
  | fmt :: rest =>
      if decide (resolution fmt ∈ seen)
      then unique_loop rest seen unique_formats
      else unique_loop rest ({[resolution fmt]} ∪ seen) (unique_formats ++ [fmt])
  end.

Definition best_format : VideoFormat :=
  mkVideoFormat "best" "best" "mp4" None "Best available quality - MP4 (recommended)".

(** Lines 92 to 155: from [info['formats']] (absent: [None]) to the list the
    result carries. *)
Definition normalize_formats (raw : option (list (gmap string pyval)))
    : result (list VideoFormat) :=
  formats ← match raw with
            | Some (fmt :: rest) =>
                formats ← collect_formats (fmt :: rest) [];
                Ok (unique_loop formats ∅ [])
            | _ => Ok []
            end;
  Ok (match formats with
      | [] => [best_format]
      | _ => formats
      end).

(** ** Paths and the file system *)

(** A [pathlib] path: whether it is anchored at the root, and its name
    components. [pathlib] drops empty and [.] components when it parses and
    keeps [..] components. *)
Record path := mkPath { absolute : bool; names : list string }.

#[global] Instance path_eq_dec : EqDecision path.
Proof. solve_decision. Defined.

Module Path.

Fixpoint split_slash (s cur : string) : list string :=
  match s with
  | EmptyString => [cur]
  | String c r =>
      if Ascii.eqb c "/" then cur :: split_slash r EmptyString
      else split_slash r (cur +:+ String c EmptyString)
  end.

Definition kept_name (n : string) : bool :=
  negb (String.eqb n EmptyString) && negb (String.eqb n ".").

(** [Path(s)] *)
Definition parse (s : string) : path :=
  mkPath (String.prefix "/" s) (List.filter kept_name (split_slash s EmptyString)).

(** [p / s] *)
Definition div (p : path) (s : string) : path :=
  let q := parse s in
  if absolute q then q else mkPath (absolute p) (names p ++ names q).

(** [p.parent] *)
Definition parent (p : path) : path := mkPath (absolute p) (removelast (names p)).

Fixpoint inits_strict (l : list string) : list (list string) :=
  match l with
  | [] => []
  | x :: r => [] :: List.map (cons x) (inits_strict r)
  end.

(** [p.parents]: the ancestors of [p], nearest first. *)
Definition parents (p : path) : list path :=
  List.map (mkPath (absolute p)) (rev (inits_strict (names p))).

Fixpoint join_slash (ns : list string) : string :=
  match ns with
  | [] => EmptyString
  | [n] => n
  | n :: r => n +:+ "/" +:+ join_slash r
  end.

(** [str(p)] *)
Definition str (p : path) : string :=
  match absolute p, names p with
  | false, [] => "."
  | false, ns => join_slash ns
  | true, ns => "/" +:+ join_slash ns
  end.

(** A single plain name: what [p / s] appends as one component. *)
Definition plain_name (s : string) : bool :=
  negb (PyStr.contains "/" s) && kept_name s && negb (String.eqb s "..").

End Path.

Inductive kind := File | Dir.

(** The file system: the nodes that exist, by absolute canonical path (the
    list of names from the root, which itself always exists). Symbolic links
    are outside the model. *)
Module FS.

Section WithCwd.

(** The working directory relative paths start from. *)
Variable cwd : list string.

(** An [OSError] as Python prints it. *)
Definition os_error (cls : exn_class) (errno msg : string) (p : path) : exn :=
  Exn cls ("[Errno " +:+ errno +:+ "] " +:+ msg +:+ ": '" +:+ Path.str p +:+ "'").

Definition node (fs : gmap (list string) kind) (k : list string) : option kind :=
  match k with
  | [] => Some Dir
  | _ => fs !! k
  end.

Definition step (k : list string) (c : string) : list string :=
  if String.eqb c ".." then removelast k else k ++ [c].

(** Path resolution, one component at a time: every directory on the way
    has to exist. *)
Fixpoint walk (fs : gmap (list string) kind) (k : list string) (ns : list string)
    : option (list string) :=
  match ns with
  | [] => match node fs k with Some _ => Some k | None => None end
  | c :: rest =>
      match node fs k with
      | Some Dir => walk fs (step k c) rest
      | _ => None
      end
  end.

Definition locate (fs : gmap (list string) kind) (p : path) : option (list string) :=
  walk fs (if absolute p then [] else cwd) (names p).

(** [p.exists()] *)
Definition path_exists (fs : gmap (list string) kind) (p : path) : bool :=
  match locate fs p with Some _ => true | None => false end.

(** [p.mkdir(exist_ok=True)]: the parent has to exist; an existing directory
    is left as it is, an existing file is an error. *)
Definition mkdir_exist_ok (fs : gmap (list string) kind) (p : path)
    : result (gmap (list string) kind) :=
  match last (names p) with
  | None => Ok fs
  | Some c =>
      match locate fs (Path.parent p) with
      | Some pk =>
          match node fs pk with
          | Some Dir =>
              match node fs (step pk c) with
              | Some Dir => Ok fs
              | Some File => Raise (os_error FileExistsError "17" "File exists" p)
              | None => Ok (<[step pk c := Dir]> fs)
              end
          | _ => Raise (os_error NotADirectoryError "20" "Not a directory" p)
          end
      | None => Raise (os_error FileNotFoundError "2" "No such file or directory" p)
      end
  end.

(** [os.remove(p)] *)
Definition os_remove (fs : gmap (list string) kind) (p : path)
    : gmap (list string) kind * result unit :=
  match locate fs p with
  | Some k =>
      match node fs k with
      | Some File => (delete k fs, Ok tt)
      | _ => (fs, Raise (os_error IsADirectoryError "21" "Is a directory" p))
      end
  | None => (fs, Raise (os_error FileNotFoundError "2" "No such file or directory" p))
  end.

(** What is left when everything below [k] is removed. *)
Definition remove_below (k : list string) (fs : gmap (list string) kind)
    : gmap (list string) kind :=
  filter (fun kv => ¬ (k `prefix_of` kv.1 ∧ kv.1 ≠ k)) fs.

(** [shutil.rmtree(p)]: the contents go first, then the directory itself;
    that last step fails for the root and for a path that ends in [..]. *)
Definition rmtree (fs : gmap (list string) kind) (p : path)
    : gmap (list string) kind * result unit :=
  match locate fs p with
  | Some k =>
      match node fs k with
      | Some Dir =>
          match last (names p) with
          | Some c =>
              if String.eqb c ".."
              then (remove_below k fs,
                    Raise (os_error OSError "39" "Directory not empty" p))
              else (delete k (remove_below k fs), Ok tt)
          | None =>
              (remove_below k fs,
               Raise (if absolute p
                      then os_error OSError "16" "Device or resource busy" p
                      else os_error OSError "22" "Invalid argument" p))
          end
      | _ => (fs, Raise (os_error NotADirectoryError "20" "Not a directory" p))
      end
  | None => (fs, Raise (os_error FileNotFoundError "2" "No such file or directory" p))
  end.

End WithCwd.

End FS.

(** ** The downloader and the world the service runs in *)

(** The options a [yt_dlp.YoutubeDL] object is built with. *)
Record ydl_opts := mkOpts {
  opt_format : string;
  opt_outtmpl : option string;
  opt_noplaylist : bool;
  opt_quiet : bool;
  opt_no_warnings : bool;
  opt_skip_download : bool;
  opt_extractor_args : list (string * list (string * list string));
  opt_http_headers : list (string * string)
}.

(** The raw metadata document [extract_info] returns, with the keys the
    service reads: absent keys are [None]; a duration is a whole number of
    seconds here. *)
Record raw_info := mkInfo {
  info_thumbnail : option pyval;
  info_title : option pyval;
  info_duration : option Z;
  info_formats : option (list (gmap string pyval))
}.

(** One call of [ydl.extract_info(url, download=...)]. *)
Record call := mkCall { call_opts : ydl_opts; call_url : string; call_download : bool }.

Record world := mkWorld {
  w_fs : gmap (list string) kind;
  w_uuids : nat;
  w_calls : list call
}.

(** The dictionary [extract_video_info] returns. *)
Record video_info := mkVideoInfo {
  vi_download_id : string;
  vi_thumbnail_url : pyval;
  vi_title : pyval;
  vi_duration : option Z;
  vi_formats : list VideoFormat
}.

Definition desktop_user_agent : string :=
  "Mozilla/5.0 (Windows NT 10.0; Win64; x64) AppleWebKit/537.36 (KHTML, like Gecko) Chrome/120.0.0.0 Safari/537.36".

(** Strategy 1: standard extraction. *)
Definition strategy_standard : ydl_opts :=
  mkOpts "best" None true true true true []
    [ ("User-Agent", desktop_user_agent);
      ("Accept", "text/html,application/xhtml+xml,application/xml;q=0.9,*/*;q=0.8");
      ("Accept-Language", "en-us,en;q=0.5");
      ("Sec-Fetch-Mode", "navigate") ].

(** Strategy 2: generic extractor. *)
Definition strategy_generic : ydl_opts :=
  mkOpts "best" None true true true true [ ("facebook", [ ("skip", ["dash"]) ]) ]
    [ ("User-Agent",
       "Mozilla/5.0 (Macintosh; Intel Mac OS X 10_15_7) AppleWebKit/537.36 (KHTML, like Gecko) Chrome/120.0.0.0 Safari/537.36") ].

(** Strategy 3: mobile user agent. *)
Definition strategy_mobile : ydl_opts :=
  mkOpts "best" None true true true true []
    [ ("User-Agent",
       "Mozilla/5.0 (iPhone; CPU iPhone OS 16_0 like Mac OS X) AppleWebKit/605.1.15 (KHTML, like Gecko) Version/16.0 Mobile/15E148 Safari/604.1") ].

Definition strategies : list ydl_opts :=
  [strategy_standard; strategy_generic; strategy_mobile].

Definition invalid_url_error : exn := Exn ValueError "Not a valid Facebook URL".

Definition blocked_message : string :=
  "Unable to download this Facebook video. Facebook has updated their security measures. "
  +:+ "Please try one of these solutions:" +:+ String "010" EmptyString
  +:+ "1. For Reels: Open the link in your browser, copy the full URL (facebook.com/reel/123456789)"
  +:+ String "010" EmptyString
  +:+ "2. For regular videos: Try using the direct video URL instead of share links"
  +:+ String "010" EmptyString
  +:+ "3. Some videos may be restricted and cannot be downloaded" +:+ String "010" EmptyString
  +:+ "Note: Facebook actively blocks automated downloads and this may not work for all videos.".

Definition private_message : string :=
  "This video appears to be private or requires login. Only public videos can be downloaded.".

(** Lines 183 to 196: the message of the error raised when every strategy
    has failed, chosen from the text of the last error. *)
Definition classify_error (error_str : string) : string :=
  if PyStr.contains "Cannot parse data" error_str
     || PyStr.contains "unable to extract" (PyStr.lower error_str)
  then blocked_message
  else if PyStr.contains "Private video" error_str
          || PyStr.contains "login" (PyStr.lower error_str)
  then private_message
  else "Could not process video: " +:+ error_str.

(** [str(last_error)] *)
Definition last_error_str (last_error : option exn) : string :=
  match last_error with
  | Some e => exn_str e
  | None => "None"
  end.

(** Lines 92 to 169: the result built from a raw document. *)
Definition build_info (download_id : string) (info : raw_info) : result video_info :=
  formats ← normalize_formats (info_formats info);
  Ok (mkVideoInfo download_id
        (default PNone (info_thumbnail info))
        (default (PStr "Facebook Video") (info_title info))
        (info_duration info)
        formats).

Section Service.

(** [settings.DOWNLOAD_DIR], the working directory, the identifier
    generator, and the downloader: the answer of the [n]-th call made in a
    world may depend on [n], the options, the URL and the mode. *)
Variable DOWNLOAD_DIR : path.
Variable cwd : list string.
Variable uuid4 : nat -> string.
Variable extract_info : nat -> ydl_opts -> string -> bool -> result raw_info.
Variable prepare_filename : ydl_opts -> raw_info -> result string.

(** [with yt_dlp.YoutubeDL(opts) as ydl: ydl.extract_info(url, download=d)] *)
Definition ydl_extract (opts : ydl_opts) (url : string) (d : bool) (w : world)
    : world * result raw_info :=
  (mkWorld (w_fs w) (w_uuids w) (w_calls w ++ [mkCall opts url d]),
   extract_info (length (w_calls w)) opts url d).

(** What the body of the [try] block of a strategy yields when its call is
    the [n]-th of the world: the document, turned into the result. *)
Definition probe_outcome (download_id : string) (n : nat) (opts : ydl_opts) (url : string)
    : result video_info :=
  extract_info n opts url false ≫= build_info download_id.

(** One strategy: the body of the [try] block. *)
Definition attempt (download_id : string) (opts : ydl_opts) (url : string) (w : world)
    : world * result video_info :=
  let '(w1, r) := ydl_extract opts url false w in
  (w1, r ≫= build_info download_id).

(** The loop over the strategies: the first result is returned, every
    exception replaces [last_error]. *)
Fixpoint try_strategies (download_id url : string) (todo : list ydl_opts)
    (last_error : option exn) (w : world) : world * (video_info + option exn) :=
  match todo with
  | [] => (w, inr last_error)
  | opts :: rest =>
      match attempt download_id opts url w with
      | (w1, Ok v) => (w1, inl v)
      | (w1, Raise e) => try_strategies download_id url rest (Some e) w1
      end
  end.

Definition with_fs (w : world) (fs : gmap (list string) kind) : world :=
  mkWorld fs (w_uuids w) (w_calls w).

Definition extract_video_info (url : string) (w : world) : world * result video_info :=
  if negb (validate_facebook_url url) then (w, Raise invalid_url_error) else
  let download_id := uuid4 (w_uuids w) in
  let w := mkWorld (w_fs w) (S (w_uuids w)) (w_calls w) in
  let download_path := Path.div DOWNLOAD_DIR download_id in
  match FS.mkdir_exist_ok cwd (w_fs w) download_path with
  | Raise e => (w, Raise e)
  | Ok fs =>
      match try_strategies download_id url strategies None (with_fs w fs) with
      | (w1, inl v) => (w1, Ok v)
      | (w1, inr last_error) =>
          let '(fs1, removed) :=
            if FS.path_exists cwd (w_fs w1) download_path
            then FS.rmtree cwd (w_fs w1) download_path
            else (w_fs w1, Ok tt) in
          match removed with
          | Raise e => (with_fs w1 fs1, Raise e)
          | Ok _ =>
              (with_fs w1 fs1,
               Raise (Exn ValueError (classify_error (last_error_str last_error))))
          end
      end
  end.

(** Lines 205 to 211. *)
Definition format_selector (format_id : string) : string :=
  if String.eqb format_id "best" || negb (Py.truthy (PStr format_id))
  then "best"
  else format_id +:+ "/best".

(** What the body of a [with] block of [download_video] yields when its call
    is the [n]-th of the world: the path of the file the downloader names. *)
Definition fetch_outcome (n : nat) (opts : ydl_opts) (url : string) : result path :=
  info ← extract_info n opts url true;
  filename ← prepare_filename opts info;
  Ok (Path.parse filename).

(** The body of each [with] block of [download_video]. *)
Definition ydl_download (opts : ydl_opts) (url : string) (w : world)
    : world * result path :=
  let '(w1, r) := ydl_extract opts url true w in
  (w1, info ← r; filename ← prepare_filename opts info; Ok (Path.parse filename)).

(** [ydl_opts['format'] = f] *)
Definition with_format (opts : ydl_opts) (f : string) : ydl_opts :=
  mkOpts f (opt_outtmpl opts) (opt_noplaylist opts) (opt_quiet opts)
    (opt_no_warnings opts) (opt_skip_download opts) (opt_extractor_args opts)
    (opt_http_headers opts).

Definition format_unavailable (error_msg : string) : bool :=
  PyStr.contains "Requested format is not available" error_msg.

(** Lines 201 to 203: the session directory is made when it is missing. *)
Definition ensure_directory (download_id : string) (fs : gmap (list string) kind)
    : result (gmap (list string) kind) :=
  let download_path := Path.div DOWNLOAD_DIR download_id in
  if negb (FS.path_exists cwd fs download_path)
  then FS.mkdir_exist_ok cwd fs download_path
  else Ok fs.

(** Lines 213 to 223: the options of the download. *)
Definition download_opts (download_id format_id : string) : ydl_opts :=
  let download_path := Path.div DOWNLOAD_DIR download_id in
  mkOpts (format_selector format_id)
    (Some (Path.str (Path.div download_path "%(title)s.%(ext)s")))
    true false false false [] [ ("User-Agent", desktop_user_agent) ].

Definition download_video (url download_id format_id : string) (w : world)
    : world * result path :=
  match ensure_directory download_id (w_fs w) with
  | Raise e => (w, Raise e)
  | Ok fs =>
      let opts := download_opts download_id format_id in
      match ydl_download opts url (with_fs w fs) with
      | (w1, Ok p) => (w1, Ok p)
      | (w1, Raise e) =>
          match exn_cls e with
          | DownloadError =>
              let error_msg := exn_str e in
              if format_unavailable error_msg then
                match ydl_download (with_format opts "best") url w1 with
                | (w2, Ok p) => (w2, Ok p)
                | (w2, Raise retry_error) =>
                    (w2, Raise (Exn ValueError
                           ("Could not download video in any available format: "
                            +:+ exn_str retry_error)))
                end
              else (w1, Raise (Exn ValueError ("Download failed: " +:+ error_msg)))
          | _ =>
              (w1, Raise (Exn ValueError
                     ("Unexpected error during download: " +:+ exn_str e)))
          end
      end
  end.

(** [cleanup_download]: the file system afterwards, and the error the
    [except] clause logged, if any. *)
Definition cleanup_download (file_path : path) (fs : gmap (list string) kind)
    : gmap (list string) kind * option exn :=
  let '(fs1, removed) :=
    if FS.path_exists cwd fs file_path
    then FS.os_remove cwd fs file_path
    else (fs, Ok tt) in
  match removed with
  | Raise e => (fs1, Some e)
  | Ok _ =>
      let parent_dir := Path.parent file_path in
      if FS.path_exists cwd fs1 parent_dir
         && bool_decide (DOWNLOAD_DIR ∈ Path.parents parent_dir)
      then
        match FS.rmtree cwd fs1 parent_dir with
        | (fs2, Raise e) => (fs2, Some e)
        | (fs2, Ok _) => (fs2, None)
        end
      else (fs1, None)
  end.

End Service.

(** ** The specification's vocabulary *)

(** The URL contains [pattern] when case is ignored: some substring of the
    URL equals the pattern up to case. *)
Definition contains_ignoring_case (pattern url : string) : Prop :=
  exists a s c, url = a +:+ s +:+ c /\ PyStr.lower s = PyStr.lower pattern.


(** A text field of a raw descriptor is well typed when it is absent or a
    string. *)
Definition absent_or_str (fmt : gmap string pyval) (k : string) : bool :=
  match fmt !! k with
  | None | Some (PStr _) => true
  | _ => false
  end.

(** The two fields every turn of the loop reads as text. *)
Definition text_typed (fmt : gmap string pyval) : bool :=
  absent_or_str fmt "protocol" && absent_or_str fmt "format_note".

(** A descriptor typed as the downloader documents it: text fields are
    strings, the resolution a string or [None], the file size an integer or
    [None], where they are present. *)
Definition typed_format (fmt : gmap string pyval) : bool :=
  text_typed fmt && absent_or_str fmt "format_id"
  && match fmt !! "resolution" with
     | None | Some PNone | Some (PStr _) => true
     | _ => false
     end
  && match fmt !! "filesize" with
     | None | Some PNone | Some (PInt _) => true
     | _ => false
     end.

Definition text_field (fmt : gmap string pyval) (k : string) : string :=
  match fmt !! k with
  | Some (PStr s) => s
  | _ => EmptyString
  end.

(** A streaming-segmented entry: the protocol or the format note carries a
    segmented-streaming marker. *)
Definition streaming_segmented (fmt : gmap string pyval) : bool :=
  PyStr.any_in streaming_protocols (text_field fmt "protocol")
  || PyStr.any_in streaming_notes (PyStr.lower (text_field fmt "format_note")).

(** An audio-only entry: no video codec (absent, [None], empty or the
    literal none), or a resolution that reads audio only. *)
Definition audio_only (fmt : gmap string pyval) : bool :=
  (let vcodec := Py.get fmt "vcodec" (PStr "none") in
   Py.eq_str vcodec "none" || negb (Py.truthy vcodec))
  || Py.eq_str (raw_resolution fmt) "audio only".

(** The metadata-only calls of a list of strategies, in order. *)
Definition probe_calls (url : string) (todo : list ydl_opts) : list call :=
  (fun opts => mkCall opts url false) <$> todo.

(** The text [s] mentions [x]: [x] occurs in it as it is written. *)
Definition mentions (x s : string) : Prop :=
  exists a c, s = a +:+ x +:+ c.

(** The error text of a blocked or unparsable page. *)
Definition blocked_text (error_str : string) : Prop :=
  mentions "Cannot parse data" error_str
  \/ contains_ignoring_case "unable to extract" error_str.

(** The error text of a private video or of one that needs a login. *)
Definition restricted_text (error_str : string) : Prop :=
  mentions "Private video" error_str
  \/ contains_ignoring_case "login" error_str.

(** The exception is a [yt_dlp.utils.DownloadError]. *)
Definition is_download_error (e : exn) : bool :=
  match exn_cls e with
  | DownloadError => true
  | _ => false
  end.

(** Deduplication in the specification's words: the first descriptor met for
    each resolution is kept, in the original order. *)
Fixpoint keep_first (formats : list VideoFormat) : list VideoFormat :=
  match formats with
  | [] => []
  | fmt :: rest =>
      fmt :: filter (fun other => resolution other ≠ resolution fmt) (keep_first rest)
  end.

(** The raw format list of the specification's scenario. *)
Definition scenario_formats : list (gmap string pyval) :=
  [ {[ "height" := PInt 720; "width" := PInt 1280; "ext" := PStr "mp4";
       "vcodec" := PStr "h264"; "protocol" := PStr "https" ]};
    {[ "height" := PInt 720; "width" := PInt 1280; "ext" := PStr "mp4";
       "vcodec" := PStr "h264"; "protocol" := PStr "m3u8" ]};
    {[ "vcodec" := PStr "none"; "ext" := PStr "m4a" ]} ].

(** What the loop body appends for each descriptor, in order, leaving out
    the descriptors it skips or raises on. *)
Definition kept_entries (raw : list (gmap string pyval)) : list VideoFormat :=
  omap (fun fmt => match format_entry fmt with
                   | Ok o => o
                   | Raise _ => None
                   end) raw.

(** The exception of the first descriptor the loop body raises on. *)
Definition first_error (raw : list (gmap string pyval)) : option exn :=
  head (omap (fun fmt => match format_entry fmt with
                         | Ok _ => None
                         | Raise e => Some e
                         end) raw).

(** The domain patterns without the mobile one. *)
Definition main_patterns : list string := ["facebook.com"; "fb.com"; "fb.watch"].

#[global] Instance kind_eq_dec : EqDecision kind.
Proof. solve_decision. Defined.

(** A file system in which every node lies in a directory. *)
Definition fs_closed (fs : gmap (list string) kind) : Prop :=
  map_Forall (fun j _ => FS.node fs (removelast j) = Some Dir) fs.

(** A world and a downloader for the examples: one session directory with a
    downloaded file, and a file outside the downloads root. *)
Module Demo.

Definition root : path := Path.parse "/srv/downloads".

Definition fs : gmap (list string) kind :=
  <[["srv"; "downloads"; "s1"; "v.mp4"] := File]>
    (<[["srv"; "downloads"; "s1"] := Dir]>
       (<[["srv"; "downloads"] := Dir]>
          (<[["srv"] := Dir]>
             (<[["etc"; "passwd"] := File]> (<[["etc"] := Dir]> ∅))))).

Definition w0 : world := mkWorld fs 0 [].

Definition uuid4 (n : nat) : string := "0b1e6f2a-session-" +:+ pretty n.

Definition info : raw_info := mkInfo None (Some (PStr "clip")) (Some 12%Z) None.

(** A downloader that always answers. *)
Definition answers (n : nat) (o : ydl_opts) (url : string) (d : bool) : result raw_info :=
  Ok info.

Definition filename (o : ydl_opts) (i : raw_info) : result string :=
  Ok "/srv/downloads/s1/clip.mp4".

(** A downloader that only has the format [best]. *)
Definition only_best (n : nat) (o : ydl_opts) (url : string) (d : bool) : result raw_info :=
  if String.eqb (opt_format o) "best" then Ok info
  else Raise (Exn DownloadError
         "ERROR: [facebook] 123: Requested format is not available. Use --list-formats for a list of available formats").

(** A downloader whose first call fails and whose second call answers. *)
Definition second_answers (n : nat) (o : ydl_opts) (url : string) (d : bool)
    : result raw_info :=
  match n with
  | 1 => Ok info
  | _ => Raise (Exn DownloadError "ERROR: [facebook] 123: Cannot parse data")
  end.

(** A downloader that never answers. *)
Definition blocked (n : nat) (o : ydl_opts) (url : string) (d : bool) : result raw_info :=
  Raise (Exn DownloadError "ERROR: [facebook] 123: Cannot parse data").

End Demo.

(** * Properties *)

(** ** Substrings and case folding *)

Module PyStrFacts.
Import PyStr.

Lemma append_nil_l (s : string) : EmptyString +:+ s = s.
Proof. reflexivity. Qed.

Lemma append_cons (c : ascii) (a b : string) : String c a +:+ b = String c (a +:+ b).
Proof. reflexivity. Qed.

Ltac norm_append := rewrite ?append_cons, ?append_nil_l in *.

Lemma append_nil_r (s : string) : s +:+ EmptyString = s.
Proof. induction s as [|c s IH]; norm_append; [reflexivity | now rewrite IH]. Qed.

Lemma append_assoc (a b c : string) : (a +:+ b) +:+ c = a +:+ b +:+ c.
Proof. induction a as [|x a IH]; norm_append; [reflexivity | now rewrite IH]. Qed.

Lemma prefix_spec (x s : string) :
  String.prefix x s = true <-> exists c, s = x +:+ c.
Proof.
  revert s. induction x as [|a x IH]; intros s.
  - split; [intros _; now exists s | intros _; now destruct s].
  - destruct s as [|b s]; cbn [String.prefix].
    + split; [discriminate | intros [c Hc]; discriminate].
    + destruct (ascii_dec a b) as [->|Hab].
      * rewrite IH. split; intros [c Hc]; exists c; norm_append; congruence.
      * split; [discriminate | intros [c Hc]; norm_append; congruence].
Qed.

Lemma contains_spec (x s : string) :
  contains x s = true <-> exists a c, s = a +:+ x +:+ c.
Proof.
  induction s as [|b s IH]; cbn [contains].
  - rewrite orb_false_r, prefix_spec. split.
    + intros [c Hc]. now exists EmptyString, c.
    + intros [a [c Hc]]. destruct a; norm_append; [now exists c | discriminate].
  - rewrite orb_true_iff, prefix_spec, IH. split.
    + intros [[c Hc] | [a [c Hc]]].
      * now exists EmptyString, c.
      * exists (String b a), c. norm_append. now rewrite Hc.
    + intros [a [c Hc]]. destruct a as [|b' a]; norm_append.
      * left. now exists c.
      * right. exists a, c. congruence.
Qed.

Lemma lower_app (a b : string) : lower (a +:+ b) = lower a +:+ lower b.
Proof.
  induction a as [|x a IH]; norm_append; cbn [lower]; norm_append;
    [reflexivity | now rewrite IH].
Qed.

Lemma lower_split (s a' b' : string) :
  lower s = a' +:+ b' -> exists a b, s = a +:+ b /\ lower a = a' /\ lower b = b'.
Proof.
  revert s. induction a' as [|x a' IH]; intros s H; norm_append.
  - now exists EmptyString, s.
  - destruct s as [|y s]; cbn [lower] in H; [discriminate|].
    injection H as Hx Hs. destruct (IH _ Hs) as (a & b & -> & Ha & Hb).
    exists (String y a), b. norm_append. cbn [lower]. now rewrite Ha, Hx.
Qed.

Lemma lower_idem (s : string) : lower (lower s) = lower s.
Proof.
  induction s as [|c s IH]; cbn [lower]; [reflexivity|]. rewrite IH. f_equal.
  destruct c as [[] [] [] [] [] [] [] []]; reflexivity.
Qed.

End PyStrFacts.

(** ** The URL classifier and the gate of the extraction *)


Lemma contains_lower_spec (x s : string) :
  PyStr.lower x = x ->
  PyStr.contains x (PyStr.lower s) = true <-> contains_ignoring_case x s.
Proof.
  intros Hx. unfold contains_ignoring_case. rewrite PyStrFacts.contains_spec. split.
  - intros (a' & c' & Hc).
    apply PyStrFacts.lower_split in Hc as (a & r & -> & Ha & Hr).
    apply PyStrFacts.lower_split in Hr as (m & c & -> & Hm & Hc).
    exists a, m, c. split; [reflexivity | congruence].
  - intros (a & m & c & -> & Hm).
    exists (PyStr.lower a), (PyStr.lower c).
    rewrite !PyStrFacts.lower_app, Hm, Hx. reflexivity.
Qed.


(** The message of the exhaustion error, by the text of the last error. *)
Lemma classify_error_spec (error_str : string) :
  (blocked_text error_str -> classify_error error_str = blocked_message) /\
  (~ blocked_text error_str -> restricted_text error_str ->
   classify_error error_str = private_message) /\
  (~ blocked_text error_str -> ~ restricted_text error_str ->
   classify_error error_str = "Could not process video: " +:+ error_str).
Proof.
  assert (Hb : PyStr.contains "Cannot parse data" error_str
               || PyStr.contains "unable to extract" (PyStr.lower error_str) = true
               <-> blocked_text error_str).
  { unfold blocked_text, mentions.
    now rewrite orb_true_iff, PyStrFacts.contains_spec, contains_lower_spec. }
  assert (Hr : PyStr.contains "Private video" error_str
               || PyStr.contains "login" (PyStr.lower error_str) = true
               <-> restricted_text error_str).
  { unfold restricted_text, mentions.
    now rewrite orb_true_iff, PyStrFacts.contains_spec, contains_lower_spec. }
  unfold classify_error.
  destruct (PyStr.contains "Cannot parse data" error_str || _).
  - split; [reflexivity|]. split; intros Hn; exfalso; now apply Hn, Hb.
  - split; [intros H%Hb; discriminate|].
    destruct (PyStr.contains "Private video" error_str || _).
    + split; [reflexivity|]. intros _ Hn. exfalso. now apply Hn, Hr.
    + split; [intros _ H%Hr; discriminate | reflexivity].
Qed.

Section Gate.

Variable DOWNLOAD_DIR : path.
Variable cwd : list string.
Variable uuid4 : nat -> string.
Variable extract_info : nat -> ydl_opts -> string -> bool -> result raw_info.

Lemma extract_rejected (url : string) (w : world) :
  validate_facebook_url url = false ->
  extract_video_info DOWNLOAD_DIR cwd uuid4 extract_info url w = (w, Raise invalid_url_error).
Proof. intros H. unfold extract_video_info. now rewrite H. Qed.


(** C10. A URL the classifier rejects leaves no trace: the error is raised
    before an identifier is drawn and before a directory is made, so the
    identifier counter and the file system are the ones the call started
    with. *)
Theorem rejected_url_is_atomic (url : string) (w : world) :
  validate_facebook_url url = false ->
  let r := extract_video_info DOWNLOAD_DIR cwd uuid4 extract_info url w in
  r.2 = Raise invalid_url_error /\
  w_uuids r.1 = w_uuids w /\ w_fs r.1 = w_fs w /\ r.1 = w.
Proof. intros Hv. cbv zeta. now rewrite (extract_rejected _ _ Hv). Qed.

End Gate.


Lemma rejected_url_is_atomic_witness :
  (extract_video_info Demo.root [] Demo.uuid4 Demo.answers
     "https://example.com/watch?v=1" Demo.w0).2 = Raise invalid_url_error /\
  w_uuids (extract_video_info Demo.root [] Demo.uuid4 Demo.answers
     "https://example.com/watch?v=1" Demo.w0).1 = 0 /\
  w_fs (extract_video_info Demo.root [] Demo.uuid4 Demo.answers
     "https://example.com/watch?v=1" Demo.w0).1 = Demo.fs /\
  (extract_video_info Demo.root [] Demo.uuid4 Demo.answers
     "https://example.com/watch?v=1" Demo.w0).1 = Demo.w0.
Proof.
  apply (rejected_url_is_atomic Demo.root [] Demo.uuid4 Demo.answers
           "https://example.com/watch?v=1" Demo.w0).
  vm_compute. reflexivity.
Defined.

(** ** The format normaliser *)

Section Normaliser.

Implicit Types (fmt : gmap string pyval) (raw : list (gmap string pyval)).
Implicit Types (formats acc : list VideoFormat) (seen : gset string).

Lemma any_in_str (xs : list string) (s : string) :
  Py.any_in xs (PStr s) = Ok (PyStr.any_in xs s).
Proof.
  induction xs as [|x xs IH]; [reflexivity|].
  cbn [Py.any_in PyStr.any_in existsb]. unfold Py.contains, mbind, result_bind.
  destruct (PyStr.contains x s); [reflexivity|]. exact IH.
Qed.

Lemma get_text fmt (k : string) :
  absent_or_str fmt k = true -> Py.get fmt k (PStr EmptyString) = PStr (text_field fmt k).
Proof.
  unfold absent_or_str, Py.get, text_field.
  destruct (fmt !! k) as [[]|]; cbn; intros; congruence.
Qed.

(** The head of a turn for a descriptor whose text fields are typed: the two
    streaming tests, then the rest of the body. *)
Lemma format_entry_typed fmt :
  text_typed fmt = true ->
  format_entry fmt =
    if PyStr.any_in streaming_protocols (text_field fmt "protocol") then Ok None else
    if PyStr.any_in streaming_notes (PyStr.lower (text_field fmt "format_note")) then Ok None else
    if (let vcodec := Py.get fmt "vcodec" (PStr "none") in
        Py.eq_str vcodec "none" || negb (Py.truthy vcodec)) then Ok None else
    if Py.eq_str (raw_resolution fmt) "audio only" then Ok None else
    match Py.get fmt "ext" (PStr "mp4") with
    | PStr e =>
        if negb (PyStr.mem e compatible_exts) then Ok None else
        entry ← VideoFormat_new (Py.get fmt "format_id" (PStr "best")) (raw_resolution fmt) e
                  (Py.get_none fmt "filesize")
                  (if Py.truthy (Py.get_none fmt "height")
                   then Py.str (raw_resolution fmt) +:+ " - " +:+ PyStr.upper e
                   else "Standard quality - " +:+ PyStr.upper e);
        Ok (Some entry)
    | _ => Ok None
    end.
Proof.
  unfold text_typed. intros [Hp Hn]%andb_true_iff. unfold format_entry.
  rewrite (get_text _ _ Hp), (get_text _ _ Hn), any_in_str.
  reflexivity.
Qed.

Lemma dropped_entry fmt :
  text_typed fmt = true ->
  streaming_segmented fmt = true \/ audio_only fmt = true ->
  format_entry fmt = Ok None.
Proof.
  intros Ht Hcls. rewrite (format_entry_typed _ Ht).
  unfold streaming_segmented, audio_only in Hcls. cbv zeta in *.
  destruct (PyStr.any_in streaming_protocols _); [reflexivity|].
  destruct (PyStr.any_in streaming_notes _); [reflexivity|].
  destruct (Py.eq_str (Py.get fmt "vcodec" (PStr "none")) "none" || _); [reflexivity|].
  destruct (Py.eq_str (raw_resolution fmt) "audio only"); [reflexivity|].
  cbn in Hcls. destruct Hcls; discriminate.
Qed.

Lemma raw_resolution_typed fmt :
  typed_format fmt = true -> exists s, raw_resolution fmt = PStr s.
Proof.
  unfold typed_format, text_typed, absent_or_str, raw_resolution, Py.get_none, Py.get.
  intros H. destruct (Py.truthy _ && Py.truthy _); [eauto|].
  destruct (fmt !! "resolution") as [[| |r]|]; cbn in *;
    destruct (fmt !! "format_note") as [[| |n]|]; cbn in *;
    rewrite ?andb_false_r in H; try discriminate; unfold Py.or_; cbn;
    repeat match goal with |- context [if ?b then _ else _] => destruct b end; eauto.
Qed.

Lemma typed_entry_returns fmt :
  typed_format fmt = true -> exists o, format_entry fmt = Ok o.
Proof.
  intros Ht. destruct (raw_resolution_typed _ Ht) as [r Hr].
  assert (Htt : text_typed fmt = true).
  { unfold typed_format in Ht. do 3 (apply andb_true_iff in Ht as [Ht _]). exact Ht. }
  rewrite (format_entry_typed _ Htt), Hr.
  assert (Hnew : forall e note, exists v,
             VideoFormat_new (Py.get fmt "format_id" (PStr "best")) (PStr r) e
               (Py.get_none fmt "filesize") note = Ok v).
  { intros e note. unfold typed_format, absent_or_str in Ht.
    unfold Py.get_none, Py.get.
    destruct (fmt !! "format_id") as [[]|]; cbn in *;
      rewrite ?andb_false_r in Ht; try discriminate;
      destruct (fmt !! "filesize") as [[]|]; cbn in *;
      rewrite ?andb_false_r in Ht; try discriminate; eauto. }
  repeat match goal with |- context [if ?b then _ else _] => destruct b end; eauto;
    (destruct (Py.get fmt "ext" (PStr "mp4")) as [| |e]; eauto;
     destruct (negb _); eauto;
     match goal with |- context [VideoFormat_new _ _ ?e _ ?n] =>
       destruct (Hnew e n) as [v ->] end; cbn; eauto).
Qed.

Lemma collect_dropped raw acc :
  Forall (fun fmt => format_entry fmt = Ok None) raw -> collect_formats raw acc = Ok acc.
Proof.
  induction 1 as [|fmt raw H _ IH]; [reflexivity|].
  cbn [collect_formats]. rewrite H. exact IH.
Qed.

Lemma collect_raises raw acc (e : exn) :
  collect_formats raw acc = Raise e ->
  exists fmt e', fmt ∈ raw /\ format_entry fmt = Raise e'.
Proof.
  revert acc. induction raw as [|fmt raw IH]; intros acc; [discriminate|].
  cbn [collect_formats]. destruct (format_entry fmt) as [o|e'] eqn:E.
  - cbn. intros (f & e'' & Hin & Hf)%IH. exists f, e''. split; [now right | exact Hf].
  - intros _. exists fmt, e'. split; [now left | exact E].
Qed.

(** The loop with its [seen] set computes what the specification describes. *)
Lemma unique_loop_acc formats seen acc :
  unique_loop formats seen acc =
  (acc ++ filter (fun other => resolution other ∉ seen) (keep_first formats))%list.
Proof.
  revert seen acc. induction formats as [|fmt rest IH]; intros seen acc.
  - cbn. now rewrite app_nil_r.
  - cbn [unique_loop keep_first]. destruct (decide (resolution fmt ∈ seen)) as [Hin|Hout].
    + rewrite IH, filter_cons_False by (intros Hn; now apply Hn).
      rewrite list_filter_filter. f_equal. apply list_filter_iff.
      intros x. split; [|tauto]. intros Hx. split; [exact Hx | congruence].
    + rewrite IH, filter_cons_True by exact Hout.
      rewrite list_filter_filter, <- app_assoc. cbn. do 2 f_equal.
      apply list_filter_iff. intros x.
      rewrite not_elem_of_union, not_elem_of_singleton. tauto.
Qed.

Lemma filter_everything (P : VideoFormat -> Prop) `{!forall x, Decision (P x)} formats :
  (forall x, P x) -> filter P formats = formats.
Proof.
  intros HP. induction formats as [|x l IH]; [reflexivity|].
  rewrite filter_cons_True by apply HP. now rewrite IH.
Qed.

Lemma unique_loop_keep_first formats :
  unique_loop formats ∅ [] = keep_first formats.
Proof.
  rewrite unique_loop_acc. rewrite filter_everything; [reflexivity|].
  intros x. apply not_elem_of_empty.
Qed.

Lemma keep_first_sublist formats : keep_first formats `sublist_of` formats.
Proof.
  induction formats as [|fmt rest IH]; cbn [keep_first]; [constructor|].
  apply sublist_skip. etransitivity; [apply sublist_filter | exact IH].
Qed.

Lemma keep_first_NoDup formats : NoDup (resolution <$> keep_first formats).
Proof.
  induction formats as [|fmt rest IH]; cbn [keep_first]; [constructor|].
  rewrite fmap_cons. constructor.
  - rewrite list_elem_of_fmap. intros (y & Hy & Hin).
    apply list_elem_of_filter in Hin as [Hne _]. congruence.
  - eapply sublist_NoDup; [exact IH|]. apply fmap_sublist, sublist_filter.
Qed.

Lemma keep_first_nonempty formats : formats ≠ [] -> keep_first formats ≠ [].
Proof. destruct formats; [congruence | discriminate]. Qed.

(** On typed descriptors the normaliser returns. *)
Lemma normalize_typed_returns (raw : option (list (gmap string pyval))) :
  Forall (fun fmt => typed_format fmt = true) (default [] raw) ->
  exists out, normalize_formats raw = Ok out.
Proof.
  intros Hty. unfold normalize_formats.
  destruct raw as [[|fmt rest]|]; [eexists; reflexivity | | eexists; reflexivity].
  destruct (collect_formats (fmt :: rest) []) as [formats|e] eqn:E;
    [eexists; reflexivity|].
  apply collect_raises in E as (f & e' & Hin & Hf). exfalso.
  rewrite Forall_forall in Hty. cbn [default] in Hty.
  destruct (typed_entry_returns f (Hty f Hin)) as [o Ho]. congruence.
Qed.

(** C2. Whatever the raw format list, the list the normaliser returns has
    no two entries with the same resolution and is not empty; the normaliser
    returns a list unless a descriptor is ill typed (the loop body then
    raises). *)
Theorem normalized_formats_unique_nonempty (raw : option (list (gmap string pyval))) :
  match normalize_formats raw with
  | Ok out => NoDup (resolution <$> out) /\ out ≠ []
  | Raise _ => exists fmt, fmt ∈ default [] raw /\ typed_format fmt = false
  end.
Proof.
  assert (Hbest : NoDup (resolution <$> [best_format]) /\ [best_format] ≠ []).
  { split; [|discriminate]. cbn. constructor; [set_solver | constructor]. }
  unfold normalize_formats. destruct raw as [[|fmt rest]|]; try exact Hbest.
  destruct (collect_formats (fmt :: rest) []) as [formats|e] eqn:E.
  - cbn. rewrite unique_loop_keep_first.
    destruct (keep_first formats) as [|x l] eqn:K; [exact Hbest|].
    rewrite <- K. split; [apply keep_first_NoDup | rewrite K; discriminate].
  - cbn. apply collect_raises in E as (f & e' & Hin & Hf). exists f.
    split; [exact Hin|]. destruct (typed_format f) eqn:T; [|reflexivity].
    destruct (typed_entry_returns _ T) as [o Ho]. congruence.
Qed.

(** C7. A raw format list that holds only streaming-segmented entries or
    audio-only entries (their text fields typed as text) is normalised to
    exactly the synthetic entry: identifier best, resolution best, container
    mp4, no file size, and the fixed note. *)
Theorem only_dropped_entries_give_fallback raw :
  Forall (fun fmt => text_typed fmt = true /\
                     (streaming_segmented fmt = true \/ audio_only fmt = true)) raw ->
  normalize_formats (Some raw) =
    Ok [mkVideoFormat "best" "best" "mp4" None "Best available quality - MP4 (recommended)"].
Proof.
  intros H. unfold normalize_formats. destruct raw as [|fmt rest]; [reflexivity|].
  rewrite collect_dropped; [reflexivity|].
  eapply Forall_impl; [exact H|]. intros f [Ht Hc]. now apply dropped_entry.
Qed.

(** C8. Deduplication keeps the first descriptor met for each resolution, in
    the original order: the loop returns what [keep_first] describes, a
    sublist of its input in which a descriptor stays exactly when no earlier
    one has its resolution. On the scenario's list the normaliser returns
    exactly one entry, of resolution 1280x720 and container mp4. *)
Theorem deduplication_keeps_first :
  (forall formats,
     unique_loop formats ∅ [] = keep_first formats /\
     unique_loop formats ∅ [] `sublist_of` formats /\
     forall (before : list VideoFormat) (x : VideoFormat) (after : list VideoFormat),
       formats = (before ++ x :: after)%list ->
       unique_loop formats ∅ [] =
         (unique_loop before ∅ []
          ++ filter (fun other => resolution other ∉ resolution <$> before)
               (keep_first (x :: after)))%list) /\
  exists entry,
    normalize_formats (Some scenario_formats) = Ok [entry] /\
    resolution entry = "1280x720" /\ ext entry = "mp4".
Proof.
  split.
  - intros formats. split; [apply unique_loop_keep_first|]. split.
    + rewrite unique_loop_keep_first. apply keep_first_sublist.
    + intros before x after ->. rewrite !unique_loop_keep_first.
      induction before as [|b before IH]; cbn [keep_first app].
      * rewrite (filter_everything (fun other => resolution other ∉ resolution <$> []));
          [reflexivity|].
        intros y. rewrite fmap_nil. apply not_elem_of_nil.
      * rewrite IH, filter_app, list_filter_filter. f_equal. f_equal.
        apply list_filter_iff. intros y. rewrite fmap_cons, not_elem_of_cons. tauto.
  - eexists. split; [vm_compute; reflexivity|]. split; reflexivity.
Qed.

End Normaliser.

Lemma only_dropped_entries_give_fallback_witness :
  normalize_formats (Some (drop 1 scenario_formats)) =
    Ok [mkVideoFormat "best" "best" "mp4" None "Best available quality - MP4 (recommended)"].
Proof.
  apply (only_dropped_entries_give_fallback (drop 1 scenario_formats)).
  constructor; [split; [|left]; vm_compute; reflexivity|].
  constructor; [split; [|right]; vm_compute; reflexivity|].
  constructor.
Defined.

(** ** The download: the selector and the retry *)

Section Download.

Variable DOWNLOAD_DIR : path.
Variable cwd : list string.
Variable extract_info : nat -> ydl_opts -> string -> bool -> result raw_info.
Variable prepare_filename : ydl_opts -> raw_info -> result string.

Lemma ydl_download_eq (opts : ydl_opts) (url : string) (w : world) :
  ydl_download extract_info prepare_filename opts url w =
  (mkWorld (w_fs w) (w_uuids w) (w_calls w ++ [mkCall opts url true]),
   fetch_outcome extract_info prepare_filename (length (w_calls w)) opts url).
Proof. reflexivity. Qed.

(** [download_video] once the session directory is there, by the outcomes
    of its calls. *)
Lemma download_video_eq (url download_id format_id : string) (w : world)
    (fs : gmap (list string) kind) :
  ensure_directory DOWNLOAD_DIR cwd download_id (w_fs w) = Ok fs ->
  let n := length (w_calls w) in
  let opts := download_opts DOWNLOAD_DIR download_id format_id in
  let c1 := mkCall opts url true in
  let c2 := mkCall (with_format opts "best") url true in
  download_video DOWNLOAD_DIR cwd extract_info prepare_filename url download_id format_id w =
  match fetch_outcome extract_info prepare_filename n opts url with
  | Ok p => (mkWorld fs (w_uuids w) (w_calls w ++ [c1]), Ok p)
  | Raise e =>
      if is_download_error e then
        if format_unavailable (exn_str e) then
          (mkWorld fs (w_uuids w) (w_calls w ++ [c1; c2]),
           match fetch_outcome extract_info prepare_filename (S n)
                   (with_format opts "best") url with
           | Ok p => Ok p
           | Raise retry_error =>
               Raise (Exn ValueError
                        ("Could not download video in any available format: "
                         +:+ exn_str retry_error))
           end)
        else (mkWorld fs (w_uuids w) (w_calls w ++ [c1]),
              Raise (Exn ValueError ("Download failed: " +:+ exn_str e)))
      else (mkWorld fs (w_uuids w) (w_calls w ++ [c1]),
            Raise (Exn ValueError ("Unexpected error during download: " +:+ exn_str e)))
  end.
Proof.
  intros Hdir. cbv zeta. unfold download_video. rewrite Hdir.
  rewrite ydl_download_eq. cbn [with_fs w_calls w_fs w_uuids].
  destruct (fetch_outcome _ _ (length (w_calls w)) _ url) as [p|e]; [reflexivity|].
  unfold is_download_error.
  destruct (exn_cls e); try reflexivity.
  destruct (format_unavailable (exn_str e)); [|reflexivity].
  rewrite ydl_download_eq. cbn [w_calls w_fs w_uuids].
  rewrite length_app, <- app_assoc. cbn [length app].
  replace (length (w_calls w) + 1) with (S (length (w_calls w))) by lia.
  destruct (fetch_outcome _ _ (S (length (w_calls w))) _ url); reflexivity.
Qed.

Lemma format_selector_cases (format_id : string) :
  format_selector format_id =
  if decide (format_id = EmptyString \/ format_id = "best") then "best"
  else format_id +:+ "/best".
Proof.
  unfold format_selector. cbn [Py.truthy].
  destruct (String.eqb_spec format_id "best") as [->|Hb]; [reflexivity|].
  destruct (String.eqb_spec format_id EmptyString) as [->|He]; [reflexivity|].
  cbn. rewrite decide_False; [reflexivity | tauto].
Qed.

(** C9. The format selector of a download is the unconditional selector
    best when the identifier is empty or the sentinel best, and the
    identifier followed by /best otherwise; the first call a download makes
    carries that selector (it makes none only when the session directory
    cannot be made). *)
Theorem download_selector (url download_id format_id : string) (w : world) :
  format_selector format_id =
    (if decide (format_id = EmptyString \/ format_id = "best") then "best"
     else format_id +:+ "/best") /\
  match w_calls (download_video DOWNLOAD_DIR cwd extract_info prepare_filename
                   url download_id format_id w).1 !! length (w_calls w) with
  | Some c =>
      opt_format (call_opts c) = format_selector format_id /\
      call_url c = url /\ call_download c = true
  | None =>
      exists e, ensure_directory DOWNLOAD_DIR cwd download_id (w_fs w) = Raise e
  end.
Proof.
  split; [apply format_selector_cases|].
  destruct (ensure_directory DOWNLOAD_DIR cwd download_id (w_fs w)) as [fs|e] eqn:Hdir.
  - rewrite (download_video_eq _ _ _ _ _ Hdir). cbv zeta.
    assert (Hmid : forall rest,
      (w_calls w ++ mkCall (download_opts DOWNLOAD_DIR download_id format_id) url true
         :: rest) !! length (w_calls w)
      = Some (mkCall (download_opts DOWNLOAD_DIR download_id format_id) url true)).
    { intros rest. now apply list_lookup_middle. }
    destruct (fetch_outcome _ _ _ _ _) as [p|e]; cbn [fst w_calls].
    + rewrite Hmid. auto.
    + destruct (is_download_error e); [destruct (format_unavailable _)|];
        cbn [fst w_calls]; rewrite Hmid; auto.
  - unfold download_video. rewrite Hdir. cbn [fst].
    rewrite lookup_ge_None_2 by lia. now exists e.
Qed.

(** C3. When the first call of a download fails with a download error that
    says the requested format is not available, exactly one more call is
    made, with the selector best, and its path is returned; when that retry
    fails, or when the first call fails in any other way, a [ValueError]
    that carries the text of the failure is raised and no further call is
    made. *)
Theorem download_retry_policy (url download_id format_id : string) (w : world)
    (fs : gmap (list string) kind) :
  ensure_directory DOWNLOAD_DIR cwd download_id (w_fs w) = Ok fs ->
  let n := length (w_calls w) in
  let opts := download_opts DOWNLOAD_DIR download_id format_id in
  let c1 := mkCall opts url true in
  let c2 := mkCall (with_format opts "best") url true in
  let r := download_video DOWNLOAD_DIR cwd extract_info prepare_filename
             url download_id format_id w in
  match fetch_outcome extract_info prepare_filename n opts url with
  | Ok p => r.2 = Ok p /\ w_calls r.1 = (w_calls w ++ [c1])%list
  | Raise e =>
      if is_download_error e && format_unavailable (exn_str e) then
        w_calls r.1 = (w_calls w ++ [c1; c2])%list /\
        opt_format (call_opts c2) = "best" /\
        match fetch_outcome extract_info prepare_filename (S n)
                (with_format opts "best") url with
        | Ok p => r.2 = Ok p
        | Raise retry_error =>
            exists p, r.2 = Raise (Exn ValueError (p +:+ exn_str retry_error))
        end
      else
        w_calls r.1 = (w_calls w ++ [c1])%list /\
        exists p, r.2 = Raise (Exn ValueError (p +:+ exn_str e))
  end.
Proof.
  intros Hdir. cbv zeta. rewrite (download_video_eq _ _ _ _ _ Hdir). cbv zeta.
  destruct (fetch_outcome _ _ (length (w_calls w)) _ url) as [p|e]; [now split|].
  destruct (is_download_error e); cbn [andb].
  - destruct (format_unavailable (exn_str e)); cbn [fst snd w_calls].
    + split; [reflexivity|]. split; [reflexivity|].
      destruct (fetch_outcome _ _ (S (length (w_calls w))) _ url); eauto.
    + split; eauto.
  - cbn [fst snd w_calls]. split; eauto.
Qed.

End Download.

Lemma download_retry_policy_witness :
  let r := download_video Demo.root [] Demo.only_best Demo.filename
             "https://facebook.com/reel/123" "s1" "999" Demo.w0 in
  r.2 = Ok (Path.parse "/srv/downloads/s1/clip.mp4") /\
  (opt_format ∘ call_opts) <$> w_calls r.1 = ["999/best"; "best"].
Proof.
  pose proof (download_retry_policy Demo.root [] Demo.only_best Demo.filename
                "https://facebook.com/reel/123" "s1" "999" Demo.w0 Demo.fs
                eq_refl) as H.
  revert H. vm_compute. intros (Hcalls & _ & Hres).
  split; [exact Hres | reflexivity].
Defined.

(** ** The file system *)

Module FSFacts.

Section WithCwd.

Variable cwd : list string.
Implicit Types (fs : gmap (list string) kind) (k : list string) (ns : list string).

Lemma node_mono fs fs' k (x : kind) :
  fs ⊆ fs' -> FS.node fs k = Some x -> FS.node fs' k = Some x.
Proof.
  intros Hsub. destruct k as [|c k]; [trivial|]. cbn.
  intros H. eapply lookup_weaken; eassumption.
Qed.

Lemma node_cons fs c k : FS.node fs (c :: k) = fs !! (c :: k).
Proof. reflexivity. Qed.

Lemma node_snoc fs k c : FS.node fs (k ++ [c]) = fs !! (k ++ [c]).
Proof. destruct k; reflexivity. Qed.

Lemma walk_app fs k ns ns' :
  FS.walk fs k (ns ++ ns') =
  match FS.walk fs k ns with
  | Some m => FS.walk fs m ns'
  | None => None
  end.
Proof.
  revert k. induction ns as [|c ns IH]; intros k; cbn [app FS.walk].
  - destruct (FS.node fs k) as [x|] eqn:E; [reflexivity|].
    destruct ns'; cbn [FS.walk]; now rewrite E.
  - destruct (FS.node fs k) as [[]|]; [reflexivity | apply IH | reflexivity].
Qed.

Lemma walk_mono fs fs' k ns (r : list string) :
  fs ⊆ fs' -> FS.walk fs k ns = Some r -> FS.walk fs' k ns = Some r.
Proof.
  intros Hsub. revert k. induction ns as [|c ns IH]; intros k; cbn [FS.walk].
  - destruct (FS.node fs k) as [x|] eqn:E; [|discriminate].
    now rewrite (node_mono _ _ _ _ Hsub E).
  - destruct (FS.node fs k) as [[]|] eqn:E; try discriminate.
    rewrite (node_mono _ _ _ _ Hsub E). apply IH.
Qed.

Lemma walk_node fs k ns (r : list string) :
  FS.walk fs k ns = Some r -> is_Some (FS.node fs r).
Proof.
  revert k. induction ns as [|c ns IH]; intros k; cbn [FS.walk].
  - destruct (FS.node fs k) as [x|] eqn:E; [|discriminate].
    intros [= <-]. rewrite E. eauto.
  - destruct (FS.node fs k) as [[]|]; try discriminate. apply IH.
Qed.

Lemma step_plain k (c : string) : c ≠ ".." -> FS.step k c = k ++ [c].
Proof.
  intros Hc. unfold FS.step. destruct (String.eqb_spec c ".."); [contradiction | reflexivity].
Qed.

(** Without [..] components a path leads below where it starts. *)
Lemma walk_plain fs k ns (r : list string) :
  Forall (fun c => c ≠ "..") ns -> FS.walk fs k ns = Some r -> r = k ++ ns.
Proof.
  intros Hns. revert k. induction Hns as [|c ns Hc _ IH]; intros k; cbn [FS.walk].
  - destruct (FS.node fs k); [|discriminate]. intros [= <-]. now rewrite app_nil_r.
  - destruct (FS.node fs k) as [[]|]; try discriminate.
    rewrite (step_plain _ _ Hc). intros ->%IH. now rewrite <- app_assoc.
Qed.

Lemma remove_below_subseteq k fs : FS.remove_below k fs ⊆ fs.
Proof. apply map_filter_subseteq. Qed.

Lemma remove_below_lookup k fs (j : list string) :
  is_Some (fs !! j) -> FS.remove_below k fs !! j = None -> k `prefix_of` j /\ j ≠ k.
Proof.
  intros [x Hx] Hnone. unfold FS.remove_below in Hnone.
  destruct (decide (k `prefix_of` j /\ j ≠ k)) as [Hyes|Hno]; [exact Hyes|].
  rewrite (map_lookup_filter_Some_2 _ _ j x) in Hnone; [discriminate | exact Hx | exact Hno].
Qed.

(** A directory that [rmtree] removed is no longer there. *)
Lemma rmtree_gone fs (p : path) k (c : string) :
  FS.locate cwd fs p = Some k -> FS.node fs k = Some Dir ->
  last (names p) = Some c -> c ≠ ".." -> k ≠ [] ->
  FS.rmtree cwd fs p = (delete k (FS.remove_below k fs), Ok tt) /\
  FS.path_exists cwd (delete k (FS.remove_below k fs)) p = false.
Proof.
  intros Hloc Hdir Hlast Hc Hk. split.
  - unfold FS.rmtree. rewrite Hloc, Hdir, Hlast.
    destruct (String.eqb_spec c ".."); [contradiction | reflexivity].
  - unfold FS.path_exists.
    destruct (FS.locate cwd (delete k (FS.remove_below k fs)) p) as [r|] eqn:E;
      [|reflexivity].
    exfalso. unfold FS.locate in *. pose proof (walk_node _ _ _ _ E) as [x Hx].
    assert (Hsub : delete k (FS.remove_below k fs) ⊆ fs).
    { etransitivity; [apply delete_subseteq | apply remove_below_subseteq]. }
    apply (walk_mono _ _ _ _ _ Hsub) in E. rewrite Hloc in E. injection E as <-.
    destruct k as [|c0 k]; [contradiction|].
    rewrite node_cons, lookup_delete_eq in Hx. discriminate.
Qed.

Lemma parse_plain (s : string) :
  Path.plain_name s = true -> Path.parse s = mkPath false [s].
Proof.
  unfold Path.plain_name. intros [[Hs Hk]%andb_true_iff _]%andb_true_iff.
  apply negb_true_iff in Hs.
  assert (Hsplit : forall t cur, PyStr.contains "/" t = false ->
                     Path.split_slash t cur = [cur +:+ t]).
  { induction t as [|c t IH]; intros cur Ht; cbn [Path.split_slash].
    - now rewrite PyStrFacts.append_nil_r.
    - cbn [PyStr.contains String.prefix] in Ht. apply orb_false_iff in Ht as [Hp Ht].
      destruct (Ascii.eqb_spec c "/") as [->|Hne].
      + exfalso. destruct (ascii_dec "/" "/"); [|contradiction].
        destruct t; discriminate.
      + rewrite (IH _ Ht), PyStrFacts.append_assoc. reflexivity. }
  unfold Path.parse. rewrite (Hsplit s EmptyString Hs), PyStrFacts.append_nil_l.
  cbn [List.filter]. rewrite Hk. f_equal.
  destruct (String.prefix "/" s) eqn:P; [|reflexivity].
  apply PyStrFacts.prefix_spec in P as [c ->].
  rewrite PyStrFacts.append_cons in Hs. cbn [PyStr.contains String.prefix] in Hs.
  destruct (ascii_dec "/" "/"); [|contradiction].
  destruct (EmptyString +:+ c); discriminate.
Qed.

Lemma div_plain (d : path) (s : string) :
  Path.plain_name s = true -> Path.div d s = mkPath (absolute d) (names d ++ [s]).
Proof. intros H. unfold Path.div. now rewrite (parse_plain _ H). Qed.

(** After [mkdir(exist_ok=True)] of a directory named by a plain name, the
    directory is there. *)
Lemma mkdir_makes fs fs1 (d : path) (s : string) :
  Path.plain_name s = true ->
  FS.mkdir_exist_ok cwd fs (Path.div d s) = Ok fs1 ->
  exists k, FS.locate cwd fs1 (Path.div d s) = Some k /\
            FS.node fs1 k = Some Dir /\ k ≠ [] /\
            last (names (Path.div d s)) = Some s /\ s ≠ "..".
Proof.
  intros Hs. rewrite (div_plain _ _ Hs).
  assert (Hdd : s ≠ "..").
  { unfold Path.plain_name in Hs. apply andb_true_iff in Hs as [_ Hs].
    apply negb_true_iff in Hs. now destruct (String.eqb_spec s ".."). }
  unfold FS.mkdir_exist_ok, FS.locate, Path.parent. cbn [names absolute].
  rewrite last_snoc, removelast_last, walk_app.
  destruct (FS.walk fs _ (names d)) as [pk|] eqn:Hpk; [|discriminate].
  destruct (FS.node fs pk) as [[]|] eqn:Hnode; try discriminate.
  rewrite (step_plain _ _ Hdd).
  assert (Hgoal : forall fs', fs ⊆ fs' -> FS.node fs' (pk ++ [s]) = Some Dir ->
            exists k, match FS.walk fs' (if absolute d then [] else cwd) (names d) with
                      | Some m => FS.walk fs' m [s]
                      | None => None
                      end = Some k /\ FS.node fs' k = Some Dir /\ k ≠ [] /\
                      Some s = Some s /\ s ≠ "..").
  { intros fs' Hsub Hnew. exists (pk ++ [s]).
    rewrite (walk_mono _ _ _ _ _ Hsub Hpk). cbn [FS.walk].
    rewrite (node_mono _ _ _ _ Hsub Hnode), (step_plain _ _ Hdd), Hnew.
    repeat split; [|exact Hdd]. now destruct pk. }
  destruct (FS.node fs (pk ++ [s])) as [[]|] eqn:Hnew; [discriminate| |].
  - intros [= <-]. now apply Hgoal.
  - intros [= <-]. rewrite node_snoc in Hnew. apply Hgoal.
    + now apply insert_subseteq.
    + rewrite node_snoc. apply lookup_insert_eq.
Qed.

End WithCwd.

End FSFacts.

(** ** The extraction: the strategies in order, and their exhaustion *)

Section Extraction.

Variable DOWNLOAD_DIR : path.
Variable cwd : list string.
Variable uuid4 : nat -> string.
Variable extract_info : nat -> ydl_opts -> string -> bool -> result raw_info.

Lemma attempt_eq (download_id : string) (opts : ydl_opts) (url : string) (w : world) :
  attempt extract_info download_id opts url w =
  (mkWorld (w_fs w) (w_uuids w) (w_calls w ++ [mkCall opts url false]),
   probe_outcome extract_info download_id (length (w_calls w)) opts url).
Proof. reflexivity. Qed.

(** A strategy whose call returns a document of typed descriptors succeeds:
    its body builds the result without raising. *)
Lemma probe_typed_succeeds (download_id url : string) (n : nat) (opts : ydl_opts)
    (info : raw_info) :
  extract_info n opts url false = Ok info ->
  Forall (fun fmt => typed_format fmt = true) (default [] (info_formats info)) ->
  exists v, probe_outcome extract_info download_id n opts url = Ok v.
Proof.
  intros Hcall Hty. unfold probe_outcome, build_info. rewrite Hcall. cbn.
  destruct (normalize_typed_returns _ Hty) as [out ->]. cbn. eauto.
Qed.

(** The loop stops at the first strategy whose body returns: the calls made
    are those of the strategies up to it, in order. *)
Lemma try_strategies_first_success (download_id url : string) (todo : list ydl_opts)
    (k : nat) (opts : ydl_opts) (v : video_info) :
  forall (last_error : option exn) (w : world),
  todo !! k = Some opts ->
  (forall j o, j < k -> todo !! j = Some o ->
     exists e, probe_outcome extract_info download_id (length (w_calls w) + j) o url = Raise e) ->
  probe_outcome extract_info download_id (length (w_calls w) + k) opts url = Ok v ->
  try_strategies extract_info download_id url todo last_error w =
  (mkWorld (w_fs w) (w_uuids w) (w_calls w ++ probe_calls url (take (S k) todo)), inl v).
Proof.
  revert k. induction todo as [|o rest IH]; intros k last_error w Hk Hfail Hok;
    [discriminate|].
  cbn [try_strategies]. rewrite attempt_eq. destruct k as [|k].
  - injection Hk as ->. rewrite Nat.add_0_r in Hok. rewrite Hok.
    reflexivity.
  - destruct (Hfail 0 o) as [e He]; [lia | reflexivity |].
    rewrite Nat.add_0_r in He. rewrite He.
    rewrite (IH k (Some e)); cbn [w_calls w_fs w_uuids].
    + unfold probe_calls. rewrite <- app_assoc. reflexivity.
    + exact Hk.
    + intros j o' Hj Ho'. destruct (Hfail (S j) o') as [e' He']; [lia | exact Ho' |].
      exists e'. rewrite length_app. cbn [length].
      now replace (length (w_calls w) + 1 + j) with (length (w_calls w) + S j) by lia.
    + rewrite length_app. cbn [length].
      now replace (length (w_calls w) + 1 + k) with (length (w_calls w) + S k) by lia.
Qed.

(** C4. The strategies are tried in their fixed order, and the first whose
    body returns ends the loop: when the strategy at position [k] (counted
    from 0) is the first to succeed, the extraction returns its result and
    has called the downloader for the strategies at positions 0 to [k], in
    order and once each, that is [k + 1] times; the later strategies are not
    called. *)
Theorem first_success_short_circuits (url : string) (w : world)
    (fs : gmap (list string) kind) (k : nat) (opts : ydl_opts) (v : video_info) :
  let download_id := uuid4 (w_uuids w) in
  let n := length (w_calls w) in
  validate_facebook_url url = true ->
  FS.mkdir_exist_ok cwd (w_fs w) (Path.div DOWNLOAD_DIR download_id) = Ok fs ->
  strategies !! k = Some opts ->
  (forall j o, j < k -> strategies !! j = Some o ->
     exists e, probe_outcome extract_info download_id (n + j) o url = Raise e) ->
  probe_outcome extract_info download_id (n + k) opts url = Ok v ->
  let r := extract_video_info DOWNLOAD_DIR cwd uuid4 extract_info url w in
  r.2 = Ok v /\
  w_calls r.1 = w_calls w ++ probe_calls url (take (S k) strategies) /\
  length (w_calls r.1) = length (w_calls w) + S k.
Proof.
  cbv zeta. intros Hurl Hdir Hk Hfail Hok. unfold extract_video_info.
  rewrite Hurl. cbn [negb w_fs w_uuids w_calls]. rewrite Hdir.
  rewrite (try_strategies_first_success _ url strategies k opts v None
             (with_fs (mkWorld (w_fs w) (S (w_uuids w)) (w_calls w)) fs) Hk Hfail Hok).
  cbn [fst snd w_calls with_fs]. split; [reflexivity|]. split; [reflexivity|].
  unfold probe_calls. rewrite length_app, length_fmap, length_take.
  apply lookup_lt_Some in Hk. lia.
Qed.

Lemma try_strategies_exhausted (download_id url : string) (w : world) (e1 e2 e3 : exn) :
  let n := length (w_calls w) in
  probe_outcome extract_info download_id n strategy_standard url = Raise e1 ->
  probe_outcome extract_info download_id (n + 1) strategy_generic url = Raise e2 ->
  probe_outcome extract_info download_id (n + 2) strategy_mobile url = Raise e3 ->
  try_strategies extract_info download_id url strategies None w =
  (mkWorld (w_fs w) (w_uuids w) (w_calls w ++ probe_calls url strategies), inr (Some e3)).
Proof.
  cbv zeta. intros H1 H2 H3. unfold strategies. cbn [try_strategies].
  rewrite attempt_eq, H1, attempt_eq. cbn [w_calls w_fs w_uuids].
  rewrite length_app. cbn [length]. rewrite H2, attempt_eq. cbn [w_calls w_fs w_uuids].
  rewrite !length_app. cbn [length].
  replace (length (w_calls w) + 1 + 1) with (length (w_calls w) + 2) by lia.
  rewrite H3. unfold probe_calls. rewrite <- !app_assoc. reflexivity.
Qed.

(** C5. When every strategy fails, the session's scratch directory is
    removed, so that it does not exist afterwards, and the extraction raises
    a [ValueError] whose message is chosen from the text of the last error:
    the guidance message for a blocked or unparsable page, else the
    access-restricted message for a private video or a login wall, else the
    generic message that carries the raw text. *)
Theorem exhausted_strategies_clean_up (url : string) (w : world)
    (fs : gmap (list string) kind) (e1 e2 e3 : exn) :
  let download_id := uuid4 (w_uuids w) in
  let download_path := Path.div DOWNLOAD_DIR download_id in
  let n := length (w_calls w) in
  validate_facebook_url url = true ->
  Path.plain_name download_id = true ->
  FS.mkdir_exist_ok cwd (w_fs w) download_path = Ok fs ->
  probe_outcome extract_info download_id n strategy_standard url = Raise e1 ->
  probe_outcome extract_info download_id (n + 1) strategy_generic url = Raise e2 ->
  probe_outcome extract_info download_id (n + 2) strategy_mobile url = Raise e3 ->
  let r := extract_video_info DOWNLOAD_DIR cwd uuid4 extract_info url w in
  FS.path_exists cwd (w_fs r.1) download_path = false /\
  exists message,
    r.2 = Raise (Exn ValueError message) /\
    (blocked_text (exn_str e3) -> message = blocked_message) /\
    (~ blocked_text (exn_str e3) -> restricted_text (exn_str e3) ->
     message = private_message) /\
    (~ blocked_text (exn_str e3) -> ~ restricted_text (exn_str e3) ->
     message = "Could not process video: " +:+ exn_str e3).
Proof.
  cbv zeta. intros Hurl Hplain Hdir H1 H2 H3. unfold extract_video_info.
  rewrite Hurl. cbn [negb w_fs w_uuids w_calls]. rewrite Hdir.
  rewrite (try_strategies_exhausted _ url
             (with_fs (mkWorld (w_fs w) (S (w_uuids w)) (w_calls w)) fs) e1 e2 e3 H1 H2 H3).
  cbn [w_fs with_fs].
  destruct (FSFacts.mkdir_makes cwd _ _ _ _ Hplain Hdir)
    as (k & Hloc & Hnode & Hk & Hlast & Hdd).
  assert (Hex : FS.path_exists cwd fs (Path.div DOWNLOAD_DIR (uuid4 (w_uuids w))) = true)
    by (unfold FS.path_exists; now rewrite Hloc).
  rewrite Hex.
  destruct (FSFacts.rmtree_gone cwd _ _ _ _ Hloc Hnode Hlast Hdd Hk) as [-> Hgone].
  cbn [fst snd w_fs with_fs last_error_str]. split; [exact Hgone|].
  exists (classify_error (exn_str e3)). split; [reflexivity|].
  apply classify_error_spec.
Qed.

End Extraction.

Lemma first_success_short_circuits_witness :
  let r := extract_video_info Demo.root [] Demo.uuid4 Demo.second_answers
             "https://facebook.com/reel/123" Demo.w0 in
  (exists v, r.2 = Ok v) /\
  w_calls r.1 = probe_calls "https://facebook.com/reel/123"
                  [strategy_standard; strategy_generic] /\
  length (w_calls r.1) = 2.
Proof.
  cbv zeta.
  edestruct (first_success_short_circuits Demo.root [] Demo.uuid4 Demo.second_answers
               "https://facebook.com/reel/123" Demo.w0) with (k := 1)
    as (Hres & Hcalls & Hlen).
  - vm_compute. reflexivity.
  - vm_compute. reflexivity.
  - reflexivity.
  - intros j o Hj Ho. assert (j = 0) as -> by lia. eexists. vm_compute. reflexivity.
  - vm_compute. reflexivity.
  - split; [eexists; exact Hres|]. split; [exact Hcalls | exact Hlen].
Defined.

Lemma exhausted_strategies_clean_up_witness :
  let r := extract_video_info Demo.root [] Demo.uuid4 Demo.blocked
             "https://facebook.com/reel/123" Demo.w0 in
  FS.path_exists [] (w_fs r.1) (Path.div Demo.root (Demo.uuid4 0)) = false /\
  r.2 = Raise (Exn ValueError blocked_message).
Proof.
  cbv zeta.
  edestruct (exhausted_strategies_clean_up Demo.root [] Demo.uuid4 Demo.blocked
               "https://facebook.com/reel/123" Demo.w0)
    as (Hgone & message & Hres & Hblocked & _).
  - vm_compute. reflexivity.
  - vm_compute. reflexivity.
  - vm_compute. reflexivity.
  - vm_compute. reflexivity.
  - vm_compute. reflexivity.
  - vm_compute. reflexivity.
  - split; [exact Hgone|]. rewrite Hres, Hblocked; [reflexivity|].
    left. apply PyStrFacts.contains_spec. vm_compute. reflexivity.
Defined.

(** ** The cleanup *)

Section Cleanup.

Variable DOWNLOAD_DIR : path.
Variable cwd : list string.
Implicit Types (fs : gmap (list string) kind) (p : path).

Lemma inits_strict_spec (l l' : list string) :
  l' ∈ Path.inits_strict l -> exists extra, extra ≠ [] /\ l = l' ++ extra.
Proof.
  revert l'. induction l as [|x l IH]; intros l'; cbn [Path.inits_strict].
  - intros H. now apply not_elem_of_nil in H.
  - rewrite elem_of_cons. intros [-> | H].
    + exists (x :: l). split; [discriminate | reflexivity].
    + change (List.map (cons x) (Path.inits_strict l)) with (cons x <$> Path.inits_strict l) in H.
      apply list_elem_of_fmap in H as (m & -> & Hm).
      destruct (IH _ Hm) as (extra & Hne & ->). now exists extra.
Qed.

(** The guard of the recursive removal: the downloads root is a proper
    lexical ancestor. *)
Lemma parents_spec (q p : path) :
  q ∈ Path.parents p ->
  absolute p = absolute q /\ exists extra, extra ≠ [] /\ names p = names q ++ extra.
Proof.
  unfold Path.parents.
  change (List.map (mkPath (absolute p)) (rev (Path.inits_strict (names p))))
    with (mkPath (absolute p) <$> rev (Path.inits_strict (names p))).
  intros (l' & -> & Hl')%list_elem_of_fmap. cbn [absolute names].
  split; [reflexivity|]. apply inits_strict_spec.
  apply list_elem_of_In. apply list_elem_of_In, in_rev in Hl'. exact Hl'.
Qed.

Lemma rmtree_subseteq fs p : (FS.rmtree cwd fs p).1 ⊆ fs.
Proof.
  unfold FS.rmtree. destruct (FS.locate cwd fs p) as [d|]; [|reflexivity].
  destruct (FS.node fs d) as [[]|]; try reflexivity.
  destruct (last (names p)) as [c|]; [destruct (String.eqb c "..")|]; cbn [fst];
    try apply FSFacts.remove_below_subseteq.
  etransitivity; [apply delete_subseteq | apply FSFacts.remove_below_subseteq].
Qed.

(** Whatever [rmtree] removes lies at or below the directory it is given. *)
Lemma rmtree_deleted fs p (j : list string) :
  is_Some (fs !! j) -> (FS.rmtree cwd fs p).1 !! j = None ->
  exists d, FS.locate cwd fs p = Some d /\ d `prefix_of` j.
Proof.
  intros Hj. unfold FS.rmtree.
  destruct (FS.locate cwd fs p) as [d|]; cbn [fst];
    [|intros Hn; rewrite Hn in Hj; now destruct Hj].
  assert (Hbelow : FS.remove_below d fs !! j = None -> exists d', Some d = Some d' /\ d' `prefix_of` j).
  { intros Hn. exists d. split; [reflexivity|].
    now apply (FSFacts.remove_below_lookup d fs j Hj). }
  destruct (FS.node fs d) as [[]|]; cbn [fst];
    try (intros Hn; rewrite Hn in Hj; now destruct Hj).
  destruct (last (names p)) as [c|]; [destruct (String.eqb c "..")|]; cbn [fst];
    try exact Hbelow.
  destruct (decide (j = d)) as [->|Hne].
  - intros _. now exists d.
  - rewrite lookup_delete_ne by congruence. exact Hbelow.
Qed.

(** The two steps of [cleanup_download]: the file removal, which is not
    guarded, and the recursive removal, which is. *)
Lemma cleanup_steps (file_path : path) fs :
  exists fs1,
    fs1 ⊆ fs /\
    (forall j, is_Some (fs !! j) -> fs1 !! j = None -> FS.locate cwd fs file_path = Some j) /\
    (forall kf, FS.locate cwd fs file_path = Some kf -> FS.node fs kf = Some File ->
                fs1 = delete kf fs) /\
    ((cleanup_download DOWNLOAD_DIR cwd file_path fs).1 = fs1 \/
     (DOWNLOAD_DIR ∈ Path.parents (Path.parent file_path) /\
      (cleanup_download DOWNLOAD_DIR cwd file_path fs).1
      = (FS.rmtree cwd fs1 (Path.parent file_path)).1)).
Proof.
  assert (Hkeep : forall j, is_Some (fs !! j) -> fs !! j = None ->
                    FS.locate cwd fs file_path = Some j).
  { intros j Hj Hn. rewrite Hn in Hj. now destruct Hj. }
  assert (Hguarded : forall fs1,
    (if FS.path_exists cwd fs1 (Path.parent file_path)
        && bool_decide (DOWNLOAD_DIR ∈ Path.parents (Path.parent file_path))
     then match FS.rmtree cwd fs1 (Path.parent file_path) with
          | (fs2, Raise e) => (fs2, Some e)
          | (fs2, Ok _) => (fs2, None)
          end
     else (fs1, None)).1 = fs1 \/
    (DOWNLOAD_DIR ∈ Path.parents (Path.parent file_path) /\
     (if FS.path_exists cwd fs1 (Path.parent file_path)
         && bool_decide (DOWNLOAD_DIR ∈ Path.parents (Path.parent file_path))
      then match FS.rmtree cwd fs1 (Path.parent file_path) with
           | (fs2, Raise e) => (fs2, Some e)
           | (fs2, Ok _) => (fs2, None)
           end
      else (fs1, None)).1 = (FS.rmtree cwd fs1 (Path.parent file_path)).1)).
  { intros fs1.
    destruct (FS.path_exists cwd fs1 (Path.parent file_path)); cbn [andb]; [|now left].
    destruct (bool_decide_reflect (DOWNLOAD_DIR ∈ Path.parents (Path.parent file_path)))
      as [Hin|Hout]; [|now left].
    right. split; [exact Hin|].
    now destruct (FS.rmtree cwd fs1 (Path.parent file_path)) as [fs2 []]. }
  unfold cleanup_download.
  destruct (FS.path_exists cwd fs file_path) eqn:Hex; unfold FS.path_exists in Hex;
    destruct (FS.locate cwd fs file_path) as [kf|] eqn:Hloc; try discriminate.
  - unfold FS.os_remove. rewrite Hloc.
    destruct (FS.node fs kf) as [[]|] eqn:Hnode; cbv beta iota.
    + exists (delete kf fs). split; [apply delete_subseteq|]. split.
      { intros j Hj Hn. destruct (decide (kf = j)) as [->|Hne]; [reflexivity|].
        rewrite lookup_delete_ne in Hn by exact Hne. rewrite Hn in Hj. now destruct Hj. }
      split; [now intros k [= <-] _ | apply Hguarded].
    + exists fs. split; [reflexivity|]. split; [exact Hkeep|].
      split; [intros k [= <-]; congruence | now left].
    + exists fs. split; [reflexivity|]. split; [exact Hkeep|].
      split; [intros k [= <-]; congruence | now left].
  - cbv beta iota. exists fs. split; [reflexivity|]. split; [exact Hkeep|].
    split; [discriminate | apply Hguarded].
Qed.

(** C1, as the code has it. The cleanup only removes. Its file removal is
    not guarded: the path it is given is removed whenever it is a file,
    wherever it lies. Its recursive removal is guarded: anything else that is
    removed lies at or below the parent directory of the path, and is removed
    only when the downloads root is a proper lexical ancestor of that
    directory; when the components after the root hold no [..], all of it
    lies strictly below the downloads root. *)
Theorem cleanup_removals (file_path : path) (fs : gmap (list string) kind)
    (j : list string) :
  let fs' := (cleanup_download DOWNLOAD_DIR cwd file_path fs).1 in
  fs' ⊆ fs /\
  (forall kf, FS.locate cwd fs file_path = Some kf -> FS.node fs kf = Some File ->
              fs' !! kf = None) /\
  (is_Some (fs !! j) -> fs' !! j = None -> FS.locate cwd fs file_path ≠ Some j ->
   exists extra,
     extra ≠ [] /\
     absolute (Path.parent file_path) = absolute DOWNLOAD_DIR /\
     names (Path.parent file_path) = names DOWNLOAD_DIR ++ extra /\
     (Forall (fun c => c ≠ "..") extra ->
      exists rk, FS.locate cwd fs DOWNLOAD_DIR = Some rk /\ rk `prefix_of` j /\ j ≠ rk)).
Proof.
  cbv zeta. destruct (cleanup_steps file_path fs) as (fs1 & Hsub & Hfile & Hdel & Hrest).
  assert (Hsub' : (cleanup_download DOWNLOAD_DIR cwd file_path fs).1 ⊆ fs1).
  { destruct Hrest as [-> | [_ ->]]; [reflexivity | apply rmtree_subseteq]. }
  split; [etransitivity; eassumption|]. split.
  - intros kf Hloc Hnode. rewrite (Hdel _ Hloc Hnode) in Hsub'.
    destruct (_ !! kf) as [x|] eqn:E; [|reflexivity].
    apply (lookup_weaken _ _ _ _ E) in Hsub'. rewrite lookup_delete_eq in Hsub'.
    discriminate.
  - intros Hj Hgone Hnot.
    assert (Hj1 : is_Some (fs1 !! j)).
    { destruct (fs1 !! j) eqn:E; [eauto|]. exfalso. now apply Hnot, Hfile. }
    destruct Hrest as [Heq | [Hguard Heq]]; rewrite Heq in Hgone.
    { rewrite Hgone in Hj1. now destruct Hj1. }
    destruct (rmtree_deleted _ _ _ Hj1 Hgone) as (d & Hd & Hpre).
    destruct (parents_spec _ _ Hguard) as (Habs & extra & Hne & Hnames).
    exists extra. repeat split; try assumption.
    intros Hplain. unfold FS.locate in Hd. rewrite Hnames, FSFacts.walk_app, Habs in Hd.
    destruct (FS.walk fs1 _ (names DOWNLOAD_DIR)) as [rk|] eqn:Hrk; [|discriminate].
    exists rk. split; [exact (FSFacts.walk_mono _ _ _ _ _ Hsub Hrk)|].
    apply (FSFacts.walk_plain _ _ _ _ Hplain) in Hd. subst d.
    split; [etransitivity; [|exact Hpre]; now apply prefix_app_r|].
    intros ->. apply prefix_length in Hpre. rewrite length_app in Hpre.
    destruct extra; [contradiction | cbn in Hpre; lia].
Qed.

End Cleanup.

(** C1, as the specification states it, fails: asked to clean up
    [/etc/passwd], with the downloads root at [/srv/downloads], the cleanup
    removes that file, which is not below the root. *)
Lemma cleanup_removes_outside_root :
  FS.locate [] Demo.fs Demo.root = Some ["srv"; "downloads"] /\
  Demo.fs !! ["etc"; "passwd"] = Some File /\
  (cleanup_download Demo.root [] (Path.parse "/etc/passwd") Demo.fs).1
    !! ["etc"; "passwd"] = None /\
  ~ ["srv"; "downloads"] `prefix_of` ["etc"; "passwd"].
Proof.
  split; [vm_compute; reflexivity|]. split; [vm_compute; reflexivity|].
  split; [vm_compute; reflexivity|].
  intros [rest H]. discriminate.
Qed.

Lemma cleanup_removals_witness :
  exists rk, FS.locate [] Demo.fs Demo.root = Some rk /\
             rk `prefix_of` ["srv"; "downloads"; "s1"] /\
             ["srv"; "downloads"; "s1"] ≠ rk.
Proof.
  destruct (cleanup_removals Demo.root [] (Path.parse "/srv/downloads/s1/v.mp4")
              Demo.fs ["srv"; "downloads"; "s1"]) as (_ & _ & H).
  destruct H as (extra & _ & _ & Hnames & Hplain).
  - vm_compute. eauto.
  - vm_compute. reflexivity.
  - vm_compute. discriminate.
  - apply Hplain. vm_compute in Hnames. injection Hnames as <-.
    repeat constructor. discriminate.
Defined.

(** ** More on the classifier and the normaliser *)

Section NormaliserShape.

Implicit Types (fmt : gmap string pyval) (raw : list (gmap string pyval)).
Implicit Types (formats acc : list VideoFormat).

(** X1. The mobile pattern never decides: a URL is accepted exactly when,
    lower-cased, it contains facebook.com, fb.com or fb.watch. *)
Theorem mobile_pattern_is_subsumed (url : string) :
  validate_facebook_url url =
  existsb (fun pattern => PyStr.contains pattern (PyStr.lower url)) main_patterns.
Proof.
  unfold validate_facebook_url, facebook_patterns, main_patterns. cbn [existsb].
  rewrite !orb_false_r.
  destruct (PyStr.contains "facebook.com" (PyStr.lower url)) eqn:E; [reflexivity|].
  cbn [orb].
  destruct (PyStr.contains "m.facebook.com" (PyStr.lower url)) eqn:M;
    [|now rewrite !orb_false_r].
  exfalso. apply PyStrFacts.contains_spec in M as (a & c & M).
  assert (PyStr.contains "facebook.com" (PyStr.lower url) = true); [|congruence].
  apply PyStrFacts.contains_spec. exists (a +:+ "m."), c. rewrite M.
  rewrite !PyStrFacts.append_assoc. reflexivity.
Qed.

Lemma raw_resolution_truthy fmt : Py.truthy (raw_resolution fmt) = true.
Proof.
  unfold raw_resolution.
  destruct (Py.truthy (Py.get_none fmt "height") && Py.truthy (Py.get_none fmt "width")).
  - cbn [Py.truthy]. destruct (Py.str (Py.get_none fmt "width"));
      rewrite ?PyStrFacts.append_nil_l, ?PyStrFacts.append_cons; reflexivity.
  - unfold Py.or_.
    destruct (Py.truthy (Py.get_none fmt "resolution")) eqn:R; [exact R|].
    destruct (Py.truthy (Py.get_none fmt "format_note")) eqn:N; [exact N | reflexivity].
Qed.

(** What a descriptor that the loop keeps looks like. *)
Lemma format_entry_kept fmt (v : VideoFormat) :
  format_entry fmt = Ok (Some v) ->
  Py.get fmt "ext" (PStr "mp4") = PStr (ext v) /\
  PyStr.mem (ext v) compatible_exts = true /\
  raw_resolution fmt = PStr (resolution v) /\
  resolution v ≠ "audio only" /\
  Py.get fmt "format_id" (PStr "best") = PStr (format_id v) /\
  (format_note v = resolution v +:+ " - " +:+ PyStr.upper (ext v) \/
   format_note v = "Standard quality - " +:+ PyStr.upper (ext v)).
Proof.
  unfold format_entry, mbind, result_bind.
  destruct (Py.lower _) as [note|]; [|discriminate].
  destruct (Py.any_in _ _) as [[]|]; try discriminate.
  destruct (PyStr.any_in _ note); try discriminate.
  destruct (Py.eq_str _ "none" || _); try discriminate.
  destruct (Py.eq_str (raw_resolution fmt) "audio only") eqn:Haudio; try discriminate.
  destruct (Py.get fmt "ext" _) as [| |e]; try discriminate.
  destruct (negb (PyStr.mem e _)) eqn:Hmem; try discriminate.
  apply negb_false_iff in Hmem. unfold VideoFormat_new.
  destruct (Py.get fmt "format_id" _) as [| |i]; try discriminate.
  destruct (raw_resolution fmt) as [| |r] eqn:Hres; try discriminate.
  assert (Hne : r ≠ "audio only").
  { cbn in Haudio. now destruct (String.eqb_spec r "audio only"). }
  destruct (Py.get_none fmt "filesize"); try discriminate;
    intros [= <-]; cbn [ext resolution format_id format_note Py.str];
    repeat split; try assumption;
    destruct (Py.truthy (Py.get_none fmt "height")); auto.
Qed.

Lemma collect_formats_spec raw acc :
  collect_formats raw acc =
  match first_error raw with
  | Some e => Raise e
  | None => Ok (acc ++ kept_entries raw)
  end.
Proof.
  revert acc. induction raw as [|fmt raw IH]; intros acc.
  - cbn. now rewrite app_nil_r.
  - cbn [collect_formats]. unfold first_error, kept_entries in *. cbn [omap list_omap].
    destruct (format_entry fmt) as [[v|]|e]; cbn.
    + rewrite IH, <- app_assoc. reflexivity.
    + apply IH.
    + reflexivity.
Qed.

Lemma normalize_formats_eq raw :
  normalize_formats (Some raw) =
  match first_error raw with
  | Some e => Raise e
  | None => Ok (match keep_first (kept_entries raw) with
                | [] => [best_format]
                | entry :: rest => entry :: rest
                end)
  end.
Proof.
  unfold normalize_formats. destruct raw as [|fmt rest]; [reflexivity|].
  rewrite collect_formats_spec. destruct (first_error (fmt :: rest)); [reflexivity|].
  unfold mbind, result_bind. cbn [app]. rewrite unique_loop_keep_first.
  now destruct (keep_first (kept_entries (fmt :: rest))).
Qed.

(** X2. The normaliser, descriptor by descriptor: it raises the exception
    of the first descriptor the loop body raises on; otherwise it returns the
    first entry of each resolution among the entries the body keeps, in their
    order, and the synthetic entry exactly when none is kept. *)
Theorem normalize_formats_spec raw :
  normalize_formats (Some raw) =
  match first_error raw with
  | Some e => Raise e
  | None => Ok (match keep_first (kept_entries raw) with
                | [] => [best_format]
                | entry :: rest => entry :: rest
                end)
  end.
Proof. exact (normalize_formats_eq raw). Qed.

Lemma kept_entries_elem raw (v : VideoFormat) :
  v ∈ kept_entries raw -> exists fmt, fmt ∈ raw /\ format_entry fmt = Ok (Some v).
Proof.
  unfold kept_entries. rewrite list_elem_of_omap. intros (fmt & Hin & H).
  exists fmt. split; [exact Hin|]. now destruct (format_entry fmt) as [[]|]; simplify_eq.
Qed.

(** X3. Every format the normaliser returns can be played and has a proper
    resolution: its container is mp4, mov, avi or mkv, and its resolution is
    neither empty nor the words audio only. *)
Theorem normalized_formats_compatible (raw : option (list (gmap string pyval)))
    (out : list VideoFormat) :
  normalize_formats raw = Ok out ->
  Forall (fun v => In (ext v) compatible_exts /\
                   resolution v ≠ EmptyString /\ resolution v ≠ "audio only") out.
Proof.
  assert (Hbest : Forall (fun v => In (ext v) compatible_exts /\
                     resolution v ≠ EmptyString /\ resolution v ≠ "audio only")
                    [best_format]).
  { repeat constructor; cbn; auto; discriminate. }
  destruct raw as [raw|]; [|intros [= <-]; exact Hbest].
  rewrite normalize_formats_eq. destruct (first_error raw); [discriminate|].
  destruct (keep_first (kept_entries raw)) as [|x l] eqn:K; intros [= <-]; [exact Hbest|].
  rewrite <- K. apply Forall_forall. intros v Hv.
  eapply elem_of_sublist in Hv; [|apply keep_first_sublist].
  apply kept_entries_elem in Hv as (fmt & _ & Hkept).
  destruct (format_entry_kept _ _ Hkept) as (_ & Hmem & Hres & Haudio & _).
  split; [|split; [|exact Haudio]].
  - unfold PyStr.mem in Hmem. apply existsb_exists in Hmem as (x' & Hin & Heq).
    apply String.eqb_eq in Heq. now subst.
  - intros Hempty. pose proof (raw_resolution_truthy fmt) as Ht.
    rewrite Hres, Hempty in Ht. discriminate.
Qed.

Lemma keep_first_resolutions formats (r : string) :
  r ∈ resolution <$> keep_first formats <-> r ∈ resolution <$> formats.
Proof.
  induction formats as [|x l IH]; cbn [keep_first]; [reflexivity|].
  rewrite !fmap_cons, !elem_of_cons, <- IH, !list_elem_of_fmap.
  split.
  - intros [-> | (y & -> & Hy)]; [now left|].
    apply list_elem_of_filter in Hy as [_ Hy]. right. eauto.
  - intros [-> | (y & -> & Hy)]; [now left|].
    destruct (decide (resolution y = resolution x)) as [Heq|Hne]; [now left|].
    right. exists y. split; [reflexivity|]. now apply list_elem_of_filter.
Qed.

(** X4. Deduplication loses no resolution and adds none: the resolutions
    of the list the loop returns are those of the list it is given, and the
    list does not grow. *)
Theorem deduplication_keeps_every_resolution formats :
  (forall r, r ∈ resolution <$> unique_loop formats ∅ [] <-> r ∈ resolution <$> formats) /\
  length (unique_loop formats ∅ []) <= length formats.
Proof.
  rewrite unique_loop_keep_first. split; [apply keep_first_resolutions|].
  apply sublist_length, keep_first_sublist.
Qed.

Lemma first_error_elem raw fmt (e : exn) :
  fmt ∈ raw -> format_entry fmt = Raise e -> is_Some (first_error raw).
Proof.
  intros Hin He. unfold first_error.
  destruct (omap _ raw) as [|x l] eqn:O; [|cbn; eauto]. exfalso.
  assert (Hx : e ∈ omap (fun fmt => match format_entry fmt with
                                    | Ok _ => None
                                    | Raise e => Some e
                                    end) raw).
  { apply list_elem_of_omap. exists fmt. split; [exact Hin|]. now rewrite He. }
  rewrite O in Hx. now apply not_elem_of_nil in Hx.
Qed.

(** X5. One descriptor whose format note is present and not a string (the
    value [None] included) makes the normaliser raise for the whole list,
    whatever that descriptor's other fields and the other descriptors are:
    the loop body lower-cases the note before it tests anything. *)
Theorem non_text_format_note_raises raw fmt (v : pyval) :
  fmt ∈ raw -> fmt !! "format_note" = Some v -> (forall s, v ≠ PStr s) ->
  (exists msg, format_entry fmt = Raise (Exn AttributeError msg)) /\
  exists e, normalize_formats (Some raw) = Raise e.
Proof.
  intros Hin Hnote Hv.
  assert (He : exists msg, format_entry fmt = Raise (Exn AttributeError msg)).
  { unfold format_entry, Py.get. rewrite Hnote. cbn [default].
    destruct v as [| |s]; [| |now destruct (Hv s)]; eexists; reflexivity. }
  split; [exact He|]. destruct He as [msg He].
  rewrite normalize_formats_eq.
  destruct (first_error_elem _ _ _ Hin He) as [e ->]. now exists e.
Qed.

End NormaliserShape.

Lemma normalized_formats_compatible_witness :
  Forall (fun v => In (ext v) compatible_exts /\
                   resolution v ≠ EmptyString /\ resolution v ≠ "audio only")
    [mkVideoFormat "best" "1280x720" "mp4" None "1280x720 - MP4"].
Proof.
  apply (normalized_formats_compatible (Some scenario_formats)).
  vm_compute. reflexivity.
Defined.

Lemma non_text_format_note_raises_witness :
  exists e, normalize_formats
              (Some [ {[ "protocol" := PStr "m3u8"; "format_note" := PNone ]} ]) = Raise e.
Proof.
  apply (non_text_format_note_raises
           [ {[ "protocol" := PStr "m3u8"; "format_note" := PNone ]} ]
           {[ "protocol" := PStr "m3u8"; "format_note" := PNone ]} PNone).
  - apply list_elem_of_singleton. reflexivity.
  - vm_compute. reflexivity.
  - discriminate.
Defined.

(** ** More on the file system *)

Module FSMore.

Section WithCwd.

Variable cwd : list string.
Implicit Types (fs : gmap (list string) kind) (k : list string) (ns : list string).


Lemma mkdir_subseteq fs fs1 (p : path) :
  FS.mkdir_exist_ok cwd fs p = Ok fs1 -> fs ⊆ fs1.
Proof.
  unfold FS.mkdir_exist_ok. destruct (last (names p)) as [c|]; [|now intros [= <-]].
  destruct (FS.locate cwd fs (Path.parent p)) as [pk|]; [|discriminate].
  destruct (FS.node fs pk) as [[]|]; try discriminate.
  destruct (FS.node fs (FS.step pk c)) as [[]|] eqn:E; try discriminate;
    intros [= <-]; [reflexivity|].
  apply insert_subseteq. destruct (FS.step pk c); [discriminate | exact E].
Qed.

(** Making a directory that is not there adds exactly that directory. *)
Lemma mkdir_fresh fs fs1 (d : path) (s : string) :
  Path.plain_name s = true ->
  FS.path_exists cwd fs (Path.div d s) = false ->
  FS.mkdir_exist_ok cwd fs (Path.div d s) = Ok fs1 ->
  exists k, k ≠ [] /\ fs !! k = None /\ fs1 = <[k := Dir]> fs /\
            FS.locate cwd fs1 (Path.div d s) = Some k.
Proof.
  intros Hs Hno Hmk.
  destruct (FSFacts.mkdir_makes cwd _ _ _ _ Hs Hmk) as (k & Hloc & _ & Hk & _ & Hdd).
  exists k. split; [exact Hk|].
  revert Hno Hmk Hloc. rewrite (FSFacts.div_plain _ _ Hs).
  unfold FS.path_exists, FS.mkdir_exist_ok, FS.locate, Path.parent. cbn [names absolute].
  rewrite last_snoc, removelast_last, !FSFacts.walk_app.
  destruct (FS.walk fs _ (names d)) as [pk|] eqn:Hpk; [|discriminate].
  cbn [FS.walk]. destruct (FS.node fs pk) as [[]|] eqn:Hnode; try discriminate.
  rewrite (FSFacts.step_plain _ _ Hdd).
  destruct (FS.node fs (pk ++ [s])) as [[]|] eqn:Hnew; try discriminate.
  intros _ [= <-]. rewrite FSFacts.node_snoc in Hnew.
  assert (Hsub : fs ⊆ <[pk ++ [s] := Dir]> fs) by now apply insert_subseteq.
  rewrite (FSFacts.walk_mono _ _ _ _ _ Hsub Hpk), (FSFacts.node_mono _ _ _ _ Hsub Hnode).
  rewrite (FSFacts.step_plain _ _ Hdd), FSFacts.node_snoc, lookup_insert_eq.
  intros [= <-]. repeat split. exact Hnew.
Qed.


(** In a closed file system nothing lies below a name that is free. *)
Lemma closed_fresh_below fs k (j : list string) :
  fs_closed fs -> k ≠ [] -> fs !! k = None -> k `prefix_of` j -> fs !! j = None.
Proof.
  intros Hcl Hk Hfree [suf ->]. induction suf as [|c suf IH] using rev_ind.
  - now rewrite app_nil_r.
  - destruct (fs !! (k ++ suf ++ [c])) as [x|] eqn:E; [|reflexivity]. exfalso.
    apply (map_Forall_lookup_1 _ _ _ _ Hcl) in E.
    rewrite app_assoc, removelast_last in E.
    destruct (k ++ suf) as [|y l] eqn:Hks; [now destruct k|].
    cbn in E. congruence.
Qed.

Lemma remove_below_other k fs (j : list string) :
  ¬ (k `prefix_of` j /\ j ≠ k) -> FS.remove_below k fs !! j = fs !! j.
Proof.
  intros Hj. unfold FS.remove_below. destruct (fs !! j) as [x|] eqn:E.
  - now apply map_lookup_filter_Some_2.
  - apply map_lookup_filter_None_2. now left.
Qed.

Lemma remove_below_fresh k fs :
  (forall j, k `prefix_of` j -> j ≠ k -> fs !! j = None) -> FS.remove_below k fs = fs.
Proof.
  intros H. apply map_filter_id. intros j x Hx [Hpre Hne]. cbn in *.
  rewrite (H j Hpre Hne) in Hx. discriminate.
Qed.

(** Removing a file does not change where a path to something else leads. *)
Lemma walk_delete_file fs (kf : list string) k ns (r : list string) :
  FS.node fs kf = Some File -> FS.walk fs k ns = Some r -> r ≠ kf ->
  FS.walk (delete kf fs) k ns = Some r.
Proof.
  intros Hf. assert (Hnode : forall j x, j ≠ kf -> FS.node fs j = Some x ->
                               FS.node (delete kf fs) j = Some x).
  { intros [|c j] x Hne; [trivial|]. cbn. now rewrite lookup_delete_ne. }
  revert k. induction ns as [|c ns IH]; intros k; cbn [FS.walk].
  - destruct (FS.node fs k) as [x|] eqn:E; [|discriminate]. intros [= <-] Hne.
    now rewrite (Hnode _ _ Hne E).
  - destruct (FS.node fs k) as [[]|] eqn:E; try discriminate. intros Hw Hne.
    rewrite (Hnode k Dir); [now apply IH | congruence | exact E].
Qed.

Lemma inits_strict_intro (l extra : list string) :
  extra ≠ [] -> l ∈ Path.inits_strict (l ++ extra).
Proof.
  intros He. induction l as [|x l IH]; cbn [app Path.inits_strict].
  - destruct extra; [contradiction | left].
  - right. change (List.map (cons x) ?m) with (cons x <$> m).
    now apply list_elem_of_fmap_2.
Qed.

(** The guard holds for a directory properly below the root. *)
Lemma parents_intro (d : path) (extra : list string) :
  extra ≠ [] -> d ∈ Path.parents (mkPath (absolute d) (names d ++ extra)).
Proof.
  intros He. unfold Path.parents. cbn [absolute names].
  change (List.map ?f ?m) with (f <$> m).
  apply list_elem_of_fmap. exists (names d). split; [now destruct d|].
  apply list_elem_of_In, in_rev. rewrite rev_involutive.
  apply list_elem_of_In, inits_strict_intro, He.
Qed.

End WithCwd.

End FSMore.

(** ** More on the extraction *)

Section ExtractionShape.

Variable DOWNLOAD_DIR : path.
Variable cwd : list string.
Variable uuid4 : nat -> string.
Variable extract_info : nat -> ydl_opts -> string -> bool -> result raw_info.

Lemma probe_outcome_id (download_id url : string) (n : nat) (opts : ydl_opts)
    (v : video_info) :
  probe_outcome extract_info download_id n opts url = Ok v -> vi_download_id v = download_id.
Proof.
  unfold probe_outcome, build_info, mbind, result_bind.
  destruct (extract_info n opts url false) as [info|]; [|discriminate].
  destruct (normalize_formats (info_formats info)); [|discriminate].
  now intros [= <-].
Qed.

(** What the loop does to the world, whatever the downloader answers. *)
Lemma try_strategies_trace (download_id url : string) (todo : list ydl_opts) :
  forall (last_error : option exn) (w : world),
  let r := try_strategies extract_info download_id url todo last_error w in
  w_fs r.1 = w_fs w /\ w_uuids r.1 = w_uuids w /\
  exists k, k <= length todo /\
    w_calls r.1 = w_calls w ++ probe_calls url (take k todo) /\
    match r.2 with
    | inl v => vi_download_id v = download_id
    | inr _ => k = length todo
    end.
Proof.
  induction todo as [|o rest IH]; intros last_error w; cbv zeta.
  - cbn. split; [reflexivity|]. split; [reflexivity|]. exists 0. cbn.
    now rewrite app_nil_r.
  - cbn [try_strategies]. rewrite attempt_eq.
    destruct (probe_outcome extract_info download_id _ o url) as [v|e] eqn:E.
    + cbn [fst snd w_fs w_uuids w_calls]. split; [reflexivity|]. split; [reflexivity|].
      exists 1. cbn [length take]. split; [lia|]. split; [reflexivity|].
      now apply probe_outcome_id in E.
    + specialize (IH (Some e)
        (mkWorld (w_fs w) (w_uuids w) (w_calls w ++ [mkCall o url false]))).
      cbv zeta in IH. destruct IH as (Hfs & Hu & k & Hk & Hcalls & Hres).
      cbn [w_fs w_uuids w_calls] in *. split; [exact Hfs|]. split; [exact Hu|].
      exists (S k). cbn [length take]. split; [lia|]. split.
      * rewrite Hcalls, <- app_assoc. reflexivity.
      * destruct (try_strategies _ _ _ _ _ _).2; [exact Hres | now rewrite Hres].
Qed.

Lemma probe_calls_metadata_only (url : string) (k : nat) :
  Forall (fun c => call_download c = false /\ call_url c = url /\
                   opt_skip_download (call_opts c) = true /\
                   opt_format (call_opts c) = "best")
    (probe_calls url (take k strategies)).
Proof.
  unfold probe_calls. apply Forall_fmap. eapply Forall_take.
  repeat constructor.
Qed.

(** X6. Whatever the downloader answers, an extraction calls it at most
    three times, for the strategies in their order from the first on, and
    only ever in metadata mode (no download, skip_download set, the URL it
    was given); it draws one identifier exactly when the URL is in scope. *)
Theorem extraction_trace (url : string) (w : world) :
  let r := extract_video_info DOWNLOAD_DIR cwd uuid4 extract_info url w in
  w_uuids r.1 = (if validate_facebook_url url then S (w_uuids w) else w_uuids w) /\
  exists k, k <= 3 /\
    w_calls r.1 = w_calls w ++ probe_calls url (take k strategies) /\
    Forall (fun c => call_download c = false /\ call_url c = url /\
                     opt_skip_download (call_opts c) = true /\
                     opt_format (call_opts c) = "best")
      (probe_calls url (take k strategies)).
Proof.
  cbv zeta. unfold extract_video_info.
  assert (Hnone : exists k, k <= 3 /\
            w_calls w = w_calls w ++ probe_calls url (take k strategies) /\
            Forall (fun c => call_download c = false /\ call_url c = url /\
                             opt_skip_download (call_opts c) = true /\
                             opt_format (call_opts c) = "best")
              (probe_calls url (take k strategies))).
  { exists 0. cbn. rewrite app_nil_r. repeat split; [lia | constructor]. }
  destruct (validate_facebook_url url); cbn [negb]; [|now split].
  cbn [w_fs w_uuids w_calls].
  destruct (FS.mkdir_exist_ok cwd (w_fs w) _) as [fs|e]; [|now split].
  pose proof (try_strategies_trace (uuid4 (w_uuids w)) url strategies None
                (with_fs (mkWorld (w_fs w) (S (w_uuids w)) (w_calls w)) fs)) as H.
  cbv zeta in H. destruct H as (_ & Hu & k & Hk & Hcalls & _).
  cbn [with_fs w_uuids w_calls] in Hu, Hcalls.
  assert (Hk3 : k <= 3) by exact Hk.
  destruct (try_strategies _ _ _ _ _ _) as [w1 [v|last_error]]; cbn [fst snd] in *.
  - split; [exact Hu|]. exists k. repeat split; try assumption.
    apply probe_calls_metadata_only.
  - destruct (if FS.path_exists cwd (w_fs w1) _ then _ else _) as [fs1 [[]|e]];
      cbn [fst w_uuids w_calls with_fs]; (split; [exact Hu|]);
      exists k; repeat split; try assumption; apply probe_calls_metadata_only.
Qed.

(** What a successful extraction leaves behind. *)
Lemma extract_ok_session (url : string) (w w' : world) (v : video_info) :
  Path.plain_name (uuid4 (w_uuids w)) = true ->
  extract_video_info DOWNLOAD_DIR cwd uuid4 extract_info url w = (w', Ok v) ->
  let session := Path.div DOWNLOAD_DIR (vi_download_id v) in
  vi_download_id v = uuid4 (w_uuids w) /\
  names session = names DOWNLOAD_DIR ++ [vi_download_id v] /\
  absolute session = absolute DOWNLOAD_DIR /\
  (exists k, FS.locate cwd (w_fs w') session = Some k /\ FS.node (w_fs w') k = Some Dir) /\
  w_fs w ⊆ w_fs w' /\
  ensure_directory DOWNLOAD_DIR cwd (vi_download_id v) (w_fs w') = Ok (w_fs w').
Proof.
  intros Hplain. unfold extract_video_info.
  destruct (validate_facebook_url url); cbn [negb]; [|discriminate].
  cbn [w_fs w_uuids w_calls].
  destruct (FS.mkdir_exist_ok cwd (w_fs w) _) as [fs|e] eqn:Hmk; [|discriminate].
  pose proof (try_strategies_trace (uuid4 (w_uuids w)) url strategies None
                (with_fs (mkWorld (w_fs w) (S (w_uuids w)) (w_calls w)) fs)) as H.
  cbv zeta in H. destruct H as (Hfs & _ & k & _ & _ & Hid).
  destruct (try_strategies _ _ _ _ _ _) as [w1 [v1|last_error]]; cbn [fst snd] in *.
  - intros [= -> ->]. cbv zeta. rewrite Hid.
    destruct (FSFacts.mkdir_makes cwd _ _ _ _ Hplain Hmk) as (j & Hloc & Hnode & _).
    rewrite (FSFacts.div_plain _ _ Hplain). cbn [names absolute].
    rewrite <- (FSFacts.div_plain _ _ Hplain), Hfs. cbn [with_fs w_fs].
    repeat split; try reflexivity.
    + exists j. now split.
    + exact (FSMore.mkdir_subseteq cwd _ _ _ Hmk).
    + unfold ensure_directory, FS.path_exists. now rewrite Hloc.
  - destruct (if FS.path_exists cwd (w_fs w1) _ then _ else _) as [fs1 [[]|e]]; discriminate.
Qed.

(** X7. A successful extraction returns the identifier it drew, and leaves
    the session directory in place as a direct child of the downloads root;
    the file system has otherwise only grown, and a download for that
    identifier finds the directory without touching the file system. *)
Theorem extraction_success (url : string) (w w' : world) (v : video_info) :
  Path.plain_name (uuid4 (w_uuids w)) = true ->
  extract_video_info DOWNLOAD_DIR cwd uuid4 extract_info url w = (w', Ok v) ->
  let session := Path.div DOWNLOAD_DIR (vi_download_id v) in
  vi_download_id v = uuid4 (w_uuids w) /\
  names session = names DOWNLOAD_DIR ++ [vi_download_id v] /\
  absolute session = absolute DOWNLOAD_DIR /\
  (exists k, FS.locate cwd (w_fs w') session = Some k /\ FS.node (w_fs w') k = Some Dir) /\
  w_fs w ⊆ w_fs w' /\
  ensure_directory DOWNLOAD_DIR cwd (vi_download_id v) (w_fs w') = Ok (w_fs w').
Proof. exact (extract_ok_session url w w' v). Qed.


(** X9. In a closed file system where the session path is free, an
    extraction that fails, for whatever reason, leaves the file system
    exactly as it found it; one that succeeds has added the session
    directory and nothing else. *)
Theorem extraction_file_system (url : string) (w : world) :
  let session := Path.div DOWNLOAD_DIR (uuid4 (w_uuids w)) in
  let r := extract_video_info DOWNLOAD_DIR cwd uuid4 extract_info url w in
  Path.plain_name (uuid4 (w_uuids w)) = true ->
  fs_closed (w_fs w) ->
  FS.path_exists cwd (w_fs w) session = false ->
  match r.2 with
  | Raise _ => w_fs r.1 = w_fs w
  | Ok _ => exists k, w_fs w !! k = None /\ w_fs r.1 = <[k := Dir]> (w_fs w) /\
                      FS.locate cwd (w_fs r.1) session = Some k
  end.
Proof.
  cbv zeta. intros Hplain Hclosed Hfree. unfold extract_video_info.
  destruct (validate_facebook_url url); cbn [negb]; [|reflexivity].
  cbn [w_fs w_uuids w_calls].
  destruct (FS.mkdir_exist_ok cwd (w_fs w) _) as [fs|e] eqn:Hmk; [|reflexivity].
  destruct (FSMore.mkdir_fresh cwd _ _ _ _ Hplain Hfree Hmk) as (k & Hk & Hnone & -> & Hloc).
  pose proof (try_strategies_trace (uuid4 (w_uuids w)) url strategies None
                (with_fs (mkWorld (w_fs w) (S (w_uuids w)) (w_calls w))
                   (<[k := Dir]> (w_fs w)))) as H.
  cbv zeta in H. destruct H as (Hfs & _).
  destruct (try_strategies _ _ _ _ _ _) as [w1 [v1|last_error]]; cbn [fst snd] in *.
  - exists k. rewrite Hfs. cbn [with_fs w_fs]. now repeat split.
  - rewrite Hfs. cbn [with_fs w_fs].
    destruct (FSFacts.mkdir_makes cwd _ _ _ _ Hplain Hmk) as (k' & Hloc' & Hnode & _ & Hlast & Hdd).
    rewrite Hloc in Hloc'. injection Hloc' as <-.
    assert (Hex : FS.path_exists cwd (<[k := Dir]> (w_fs w))
                    (Path.div DOWNLOAD_DIR (uuid4 (w_uuids w))) = true)
      by (unfold FS.path_exists; now rewrite Hloc).
    rewrite Hex.
    destruct (FSFacts.rmtree_gone cwd _ _ _ _ Hloc Hnode Hlast Hdd Hk) as [-> _].
    cbn [fst snd w_fs with_fs].
    rewrite FSMore.remove_below_fresh; [now apply delete_insert_id|].
    intros j Hpre Hne. rewrite lookup_insert_ne by congruence.
    now apply (FSMore.closed_fresh_below _ k).
Qed.

End ExtractionShape.

Lemma extraction_success_witness :
  exists k, FS.locate [] (w_fs (extract_video_info Demo.root [] Demo.uuid4 Demo.answers
                                  "https://fb.watch/abc" Demo.w0).1)
              (Path.div Demo.root (Demo.uuid4 0)) = Some k.
Proof.
  destruct (extraction_success Demo.root [] Demo.uuid4 Demo.answers "https://fb.watch/abc"
              Demo.w0
              (extract_video_info Demo.root [] Demo.uuid4 Demo.answers
                 "https://fb.watch/abc" Demo.w0).1
              (mkVideoInfo (Demo.uuid4 0) PNone (PStr "clip") (Some 12%Z) [best_format]))
    as (_ & _ & _ & (k & Hk & _) & _).
  - vm_compute. reflexivity.
  - vm_compute. reflexivity.
  - exists k. exact Hk.
Defined.


Lemma extraction_file_system_witness :
  w_fs (extract_video_info Demo.root [] Demo.uuid4 Demo.blocked
          "https://fb.watch/abc" Demo.w0).1 = Demo.fs.
Proof.
  apply (extraction_file_system Demo.root [] Demo.uuid4 Demo.blocked
           "https://fb.watch/abc" Demo.w0).
  - vm_compute. reflexivity.
  - unfold fs_closed. apply (bool_decide_unpack _). vm_compute. reflexivity.
  - vm_compute. reflexivity.
Defined.

(** ** More on the download *)

Section DownloadShape.

Variable DOWNLOAD_DIR : path.
Variable cwd : list string.
Variable uuid4 : nat -> string.
Variable extract_info : nat -> ydl_opts -> string -> bool -> result raw_info.
Variable prepare_filename : ydl_opts -> raw_info -> result string.

(** X10. Whatever the downloader answers, a download calls it at most
    twice, always in download mode, for the URL it was given and with the
    same output template; it draws no identifier; once a call has been made
    every failure is a [ValueError], and no call is made only when the
    session directory could not be made, whose error is then raised as it
    is. *)
Theorem download_trace (url download_id format_id : string) (w : world) :
  let r := download_video DOWNLOAD_DIR cwd extract_info prepare_filename
             url download_id format_id w in
  w_uuids r.1 = w_uuids w /\
  exists new,
    w_calls r.1 = w_calls w ++ new /\ length new <= 2 /\
    Forall (fun c => call_download c = true /\ call_url c = url /\
                     opt_skip_download (call_opts c) = false /\
                     opt_outtmpl (call_opts c)
                     = opt_outtmpl (download_opts DOWNLOAD_DIR download_id format_id))
      new /\
    (forall e, r.2 = Raise e -> new ≠ [] -> exn_cls e = ValueError) /\
    (new = [] -> exists e,
       ensure_directory DOWNLOAD_DIR cwd download_id (w_fs w) = Raise e /\
       r = (w, Raise e)).
Proof.
  cbv zeta.
  destruct (ensure_directory DOWNLOAD_DIR cwd download_id (w_fs w)) as [fs|e0] eqn:Hdir.
  - rewrite (download_video_eq _ _ _ _ _ _ _ _ _ Hdir). cbv zeta.
    set (opts := download_opts DOWNLOAD_DIR download_id format_id).
    assert (H1 : Forall (fun c => call_download c = true /\ call_url c = url /\
                     opt_skip_download (call_opts c) = false /\
                     opt_outtmpl (call_opts c) = opt_outtmpl opts)
                   [mkCall opts url true; mkCall (with_format opts "best") url true])
      by (repeat constructor).
    destruct (fetch_outcome _ _ (length (w_calls w)) opts url) as [p|e].
    + split; [reflexivity|]. exists [mkCall opts url true].
      split; [reflexivity|]. split; [cbn; lia|].
      split; [now apply Forall_cons_1 in H1 as [? _]; constructor|].
      split; [discriminate | discriminate].
    + destruct (is_download_error e); [destruct (format_unavailable (exn_str e))|].
      * split; [reflexivity|].
        exists [mkCall opts url true; mkCall (with_format opts "best") url true].
        split; [reflexivity|]. split; [cbn; lia|]. split; [exact H1|].
        split; [|discriminate]. cbn [snd]. intros e1.
        destruct (fetch_outcome _ _ _ _ _); [discriminate|]. now intros [= <-].
      * split; [reflexivity|]. exists [mkCall opts url true].
        split; [reflexivity|]. split; [cbn; lia|].
        split; [now apply Forall_cons_1 in H1 as [? _]; constructor|].
        split; [|discriminate]. cbn [snd]. now intros e1 [= <-].
      * split; [reflexivity|]. exists [mkCall opts url true].
        split; [reflexivity|]. split; [cbn; lia|].
        split; [now apply Forall_cons_1 in H1 as [? _]; constructor|].
        split; [|discriminate]. cbn [snd]. now intros e1 [= <-].
  - unfold download_video. rewrite Hdir. split; [reflexivity|]. exists [].
    rewrite app_nil_r. split; [reflexivity|]. split; [cbn; lia|].
    split; [constructor|]. split; [intros ? _ H; now destruct H | now exists e0].
Qed.




End DownloadShape.




(** ** More on the cleanup *)

Section CleanupShape.

Variable DOWNLOAD_DIR : path.
Variable cwd : list string.
Implicit Types (fs : gmap (list string) kind) (k : list string).

Lemma snoc_neq (l : list string) (x : string) : l ++ [x] ≠ l.
Proof.
  intros H. apply (f_equal length) in H. rewrite length_app in H. cbn in H. lia.
Qed.

Lemma plain_not_dotdot (s : string) : Path.plain_name s = true -> s ≠ "..".
Proof.
  unfold Path.plain_name. intros [_ H]%andb_true_iff.
  apply negb_true_iff in H. now destruct (String.eqb_spec s "..").
Qed.

(** X14. Cleaning up a file of a session directory removes the session: for
    a path made of the downloads root, a session name and a file name, where
    the session directory is there and the file is a file or is missing,
    nothing is logged, the session directory and all below it are gone, and
    every node outside it is as it was. *)
Theorem cleanup_removes_session (download_id name : string)
    (fs : gmap (list string) kind) (k : list string) :
  let session := Path.div DOWNLOAD_DIR download_id in
  let file_path := Path.div session name in
  let r := cleanup_download DOWNLOAD_DIR cwd file_path fs in
  Path.plain_name download_id = true ->
  Path.plain_name name = true ->
  FS.locate cwd fs session = Some k ->
  FS.node fs k = Some Dir ->
  FS.node fs (k ++ [name]) ≠ Some Dir ->
  r.2 = None /\
  FS.path_exists cwd r.1 session = false /\
  FS.path_exists cwd r.1 file_path = false /\
  (forall j, k `prefix_of` j -> r.1 !! j = None) /\
  (forall j, ¬ k `prefix_of` j -> r.1 !! j = fs !! j).
Proof.
  cbv zeta. intros Hid Hname Hloc Hdir Hfile.
  pose proof (plain_not_dotdot _ Hid) as Hid'. pose proof (plain_not_dotdot _ Hname) as Hname'.
  set (session := Path.div DOWNLOAD_DIR download_id) in *.
  assert (Hsession : session = mkPath (absolute DOWNLOAD_DIR) (names DOWNLOAD_DIR ++ [download_id]))
    by apply (FSFacts.div_plain _ _ Hid).
  assert (Hk : k ≠ []).
  { unfold FS.locate in Hloc. rewrite Hsession in Hloc. cbn [names absolute] in Hloc.
    rewrite FSFacts.walk_app in Hloc. destruct (FS.walk fs _ (names DOWNLOAD_DIR)) as [pk|];
      [|discriminate]. cbn [FS.walk] in Hloc.
    destruct (FS.node fs pk) as [[]|]; try discriminate.
    rewrite (FSFacts.step_plain _ _ Hid') in Hloc.
    destruct (FS.node fs (pk ++ [download_id])); [|discriminate].
    injection Hloc as <-. now destruct pk. }
  assert (Hlast : last (names session) = Some download_id)
    by (rewrite Hsession; cbn [names]; apply last_snoc).
  assert (Hpath : Path.div session name = mkPath (absolute session) (names session ++ [name]))
    by apply (FSFacts.div_plain _ _ Hname).
  assert (Hparent : Path.parent (Path.div session name) = session).
  { rewrite Hpath. unfold Path.parent. cbn [names absolute]. rewrite removelast_last.
    now rewrite Hsession. }
  assert (Hfileloc : forall fs', FS.locate cwd fs' session = Some k -> FS.node fs' k = Some Dir ->
            FS.locate cwd fs' (Path.div session name)
            = match FS.node fs' (k ++ [name]) with Some _ => Some (k ++ [name]) | None => None end).
  { intros fs' Hl Hn. rewrite Hpath. unfold FS.locate in *. cbn [names absolute].
    rewrite FSFacts.walk_app, Hl. cbn [FS.walk]. now rewrite Hn, (FSFacts.step_plain _ _ Hname'). }
  assert (Hguard : bool_decide (DOWNLOAD_DIR ∈ Path.parents session) = true).
  { apply bool_decide_eq_true. rewrite Hsession. now apply FSMore.parents_intro. }
  assert (Hsecond : forall fs1,
            FS.locate cwd fs1 session = Some k -> FS.node fs1 k = Some Dir ->
            (forall j, j ≠ k ++ [name] -> fs1 !! j = fs !! j) ->
            let r2 := (if FS.path_exists cwd fs1 (Path.parent (Path.div session name))
                          && bool_decide (DOWNLOAD_DIR ∈ Path.parents
                                            (Path.parent (Path.div session name)))
                       then match FS.rmtree cwd fs1 (Path.parent (Path.div session name)) with
                            | (fs2, Raise e) => (fs2, Some e)
                            | (fs2, Ok _) => (fs2, None)
                            end
                       else (fs1, None)) in
            r2.2 = None /\
            FS.path_exists cwd r2.1 session = false /\
            FS.path_exists cwd r2.1 (Path.div session name) = false /\
            (forall j, k `prefix_of` j -> r2.1 !! j = None) /\
            (forall j, ¬ k `prefix_of` j -> r2.1 !! j = fs !! j)).
  { intros fs1 Hl Hn Hsame. cbv zeta.
    assert (Hex : FS.path_exists cwd fs1 session = true)
      by (unfold FS.path_exists; now rewrite Hl).
    rewrite Hparent, Hguard, Hex. cbn [andb].
    destruct (FSFacts.rmtree_gone cwd _ _ _ _ Hl Hn Hlast Hid' Hk) as [-> Hgone].
    cbn [fst snd]. split; [reflexivity|]. split; [exact Hgone|].
    split; [|split].
    - unfold FS.path_exists, FS.locate in Hgone |- *. rewrite Hpath. cbn [names absolute].
      rewrite FSFacts.walk_app.
      destruct (FS.walk (delete k (FS.remove_below k fs1)) _ (names session));
        [discriminate | reflexivity].
    - intros j Hpre. destruct (decide (j = k)) as [->|Hne]; [apply lookup_delete_eq|].
      rewrite lookup_delete_ne by congruence. apply map_lookup_filter_None_2.
      right. intros x _ Hp. cbn in Hp. now apply Hp.
    - intros j Hpre. assert (j ≠ k) by (intros ->; now apply Hpre).
      rewrite lookup_delete_ne by congruence.
      rewrite FSMore.remove_below_other by tauto. apply Hsame.
      intros ->. apply Hpre. now apply prefix_app_r. }
  assert (Hfirst : exists fs1,
            FS.locate cwd fs1 session = Some k /\ FS.node fs1 k = Some Dir /\
            (forall j, j ≠ k ++ [name] -> fs1 !! j = fs !! j) /\
            cleanup_download DOWNLOAD_DIR cwd (Path.div session name) fs =
            (if FS.path_exists cwd fs1 (Path.parent (Path.div session name))
                && bool_decide (DOWNLOAD_DIR ∈ Path.parents
                                  (Path.parent (Path.div session name)))
             then match FS.rmtree cwd fs1 (Path.parent (Path.div session name)) with
                  | (fs2, Raise e) => (fs2, Some e)
                  | (fs2, Ok _) => (fs2, None)
                  end
             else (fs1, None))).
  { unfold cleanup_download, FS.path_exists at 1, FS.os_remove.
    rewrite (Hfileloc fs Hloc Hdir).
    destruct (FS.node fs (k ++ [name])) as [[]|] eqn:Hn; [|contradiction|].
    - exists (delete (k ++ [name]) fs).
      split; [|split; [|split; [now intros j Hj; rewrite lookup_delete_ne
                                | cbv beta iota; now rewrite Hn]]].
      + unfold FS.locate in *. apply FSMore.walk_delete_file; [exact Hn | exact Hloc|].
        intros H. symmetry in H. now apply snoc_neq in H.
      + destruct k as [|c k']; [contradiction|]. rewrite FSFacts.node_cons in *.
        rewrite lookup_delete_ne; [exact Hdir | apply snoc_neq].
    - exists fs. split; [exact Hloc|]. split; [exact Hdir|]. split; [reflexivity | reflexivity]. }
  destruct Hfirst as (fs1 & Hl & Hn1 & Hsame & ->). now apply Hsecond.
Qed.

(** X15. Handed a directory, the cleanup removes nothing at all: the file
    removal raises, the error is logged, and the recursive removal is not
    reached, even for a session directory below the downloads root. *)
Theorem cleanup_given_directory (file_path : path) (fs : gmap (list string) kind)
    (k : list string) :
  FS.locate cwd fs file_path = Some k ->
  FS.node fs k = Some Dir ->
  cleanup_download DOWNLOAD_DIR cwd file_path fs =
  (fs, Some (FS.os_error IsADirectoryError "21" "Is a directory" file_path)).
Proof.
  intros Hloc Hdir. unfold cleanup_download, FS.path_exists, FS.os_remove.
  now rewrite Hloc, Hdir.
Qed.

(** X16. For a path directly in the downloads root the recursive removal
    is never run, the root being no proper ancestor of itself: the cleanup
    removes the file at most, and the root with all else in it stays. *)
Theorem cleanup_in_root (file_path : path) (fs : gmap (list string) kind) :
  Path.parent file_path = DOWNLOAD_DIR ->
  let r := cleanup_download DOWNLOAD_DIR cwd file_path fs in
  r.1 ⊆ fs /\
  forall j, is_Some (fs !! j) -> r.1 !! j = None -> FS.locate cwd fs file_path = Some j.
Proof.
  intros Hparent. cbv zeta.
  destruct (cleanup_steps DOWNLOAD_DIR cwd file_path fs) as (fs1 & Hsub & Hfile & _ & Hrest).
  destruct Hrest as [-> | [Hguard _]]; [now split|].
  exfalso. rewrite Hparent in Hguard.
  destruct (parents_spec _ _ Hguard) as (_ & extra & Hne & Hnames).
  apply (f_equal length) in Hnames. rewrite length_app in Hnames.
  destruct extra; [contradiction | cbn in Hnames; lia].
Qed.

End CleanupShape.

Lemma cleanup_removes_session_witness :
  FS.path_exists []
    (cleanup_download Demo.root [] (Path.parse "/srv/downloads/s1/v.mp4") Demo.fs).1
    (Path.parse "/srv/downloads/s1") = false.
Proof.
  apply (cleanup_removes_session Demo.root [] "s1" "v.mp4" Demo.fs ["srv"; "downloads"; "s1"]).
  - vm_compute. reflexivity.
  - vm_compute. reflexivity.
  - vm_compute. reflexivity.
  - vm_compute. reflexivity.
  - vm_compute. discriminate.
Defined.

Lemma cleanup_given_directory_witness :
  (cleanup_download Demo.root [] (Path.parse "/srv/downloads/s1") Demo.fs).1 = Demo.fs.
Proof.
  rewrite (cleanup_given_directory Demo.root [] (Path.parse "/srv/downloads/s1") Demo.fs
             ["srv"; "downloads"; "s1"]); vm_compute; reflexivity.
Defined.

Lemma cleanup_in_root_witness :
  (cleanup_download Demo.root [] (Path.parse "/srv/downloads/stray.mp4") Demo.fs).1 ⊆ Demo.fs.
Proof.
  apply (cleanup_in_root Demo.root [] (Path.parse "/srv/downloads/stray.mp4") Demo.fs).
  vm_compute. reflexivity.
Defined.
